(** * Adaptive Process Booster: the sampling, scoring and policy engine

    A shallow embedding of [adaptive_process_booster.py].  Python floats are
    IEEE binary64 values, modelled by Rocq's primitive floats; integers are
    [Z]; the application object is a record threaded through a small
    state/exception/trace monad; the operating system and the clock are
    oracles whose answers are inputs of the model. *)

From Stdlib Require Import ZArith List String Ascii Bool Floats Lia DecimalString.
Import ListNotations.

Set Warnings "-inexact-float".

Local Open Scope list_scope.

Notation "s1 +++ s2" := (String.append s1 s2)
  (at level 60, right associativity) : string_scope.

(** ** Python values *)

(** The exception classes the program names in its [except] clauses.  Every
    one of them derives from [Exception]. *)
Inductive exn : Type :=
| NoSuchProcess (msg : string)
| AccessDenied (msg : string)
| ZombieProcess (msg : string)
| Exception (msg : string).

Definition str_exn (e : exn) : string :=
  match e with
  | NoSuchProcess m | AccessDenied m | ZombieProcess m | Exception m => m
  end.

Inductive result (A : Type) : Type :=
| Ok (a : A)
| Raise (e : exn).
Arguments Ok {A} a.
Arguments Raise {A} e.

(** [str(n)] for an integer. *)
Definition str_int (n : Z) : string := NilZero.string_of_int (Z.to_int n).

(** Rounding of the exact quotient [num / den] to the nearest integer, ties to
    even: what [format(x, '.2f')] does on the exact binary value. *)
Definition round_half_even (num den : Z) : Z :=
  let q := (num / den)%Z in
  let r := (num mod den)%Z in
  match (2 * r ?= den)%Z with
  | Lt => q
  | Gt => (q + 1)%Z
  | Eq => if Z.even q then q else (q + 1)%Z
  end.

Definition two_digits (n : Z) : string :=
  if (n <? 10)%Z then ("0" +++ str_int n)%string else str_int n.

(** [f"{x:.2f}"]. *)
Definition format_2f (x : float) : string :=
  match Prim2SF x with
  | S754_nan => "nan"%string
  | S754_infinity s => if s then "-inf"%string else "inf"%string
  | S754_zero s => if s then "-0.00"%string else "0.00"%string
  | S754_finite s m e =>
      let h := (if 0 <=? e then Z.pos m * 2 ^ e * 100
                else round_half_even (Z.pos m * 100) (2 ^ (- e)))%Z in
      ((if s then "-" else "") +++ str_int (h / 100)%Z +++ "."
         +++ two_digits (h mod 100)%Z)%string
  end.

(** [x or d] on an optional float: [None] and zero are falsy. *)
Definition float_or (x : option float) (d : float) : float :=
  match x with
  | Some v => if PrimFloat.eqb v 0%float then d else v
  | None => d
  end.

(** [s or d] on an optional string: [None] and the empty string are falsy. *)
Definition string_or (s : option string) (d : string) : string :=
  match s with
  | Some EmptyString => d
  | Some v => v
  | None => d
  end.

Definition newline : string := String (ascii_of_nat 10) EmptyString.

(** [sep.join(l)]. *)
Fixpoint join (sep : string) (l : list string) : string :=
  match l with
  | [] => EmptyString
  | [x] => x
  | x :: rest => (x +++ sep +++ join sep rest)%string
  end.

(** A [dict] with string keys, in insertion order. *)
Fixpoint dict_get {V : Type} (k : string) (d : list (string * V)) : option V :=
  match d with
  | [] => None
  | (k', v) :: rest => if String.eqb k k' then Some v else dict_get k rest
  end.

Definition dict_mem {V : Type} (k : string) (d : list (string * V)) : bool :=
  match dict_get k d with Some _ => true | None => false end.

Definition dict_keys {V : Type} (d : list (string * V)) : list string :=
  map fst d.

(** ** [collections.deque] *)

Record deque (A : Type) : Type := mk_deque
  { dq_maxlen : option nat;
    dq_items : list A }.
Arguments mk_deque {A} _ _.
Arguments dq_maxlen {A} _.
Arguments dq_items {A} _.

(** [d.append(x)]: the item goes to the right end; a full bounded deque then
    drops its leftmost item. *)
Definition deque_append {A : Type} (d : deque A) (x : A) : deque A :=
  let l := dq_items d ++ [x] in
  mk_deque (dq_maxlen d)
    (match dq_maxlen d with
     | Some n => if (n <? List.length l)%nat then tl l else l
     | None => l
     end).

(** ** Priority levels *)

Inductive platform : Type := win32 | posix.

(** The value handed to [Process.nice]: one of psutil's Windows priority
    classes, kept symbolic, or a POSIX nice value. *)
Inductive nice_value : Type :=
| REALTIME_PRIORITY_CLASS
| HIGH_PRIORITY_CLASS
| ABOVE_NORMAL_PRIORITY_CLASS
| NORMAL_PRIORITY_CLASS
| BELOW_NORMAL_PRIORITY_CLASS
| IDLE_PRIORITY_CLASS
| Nice (n : Z).

Definition PRIORITY_LEVELS_Windows : list (string * nice_value) :=
  [ ("Realtime", REALTIME_PRIORITY_CLASS);
    ("High", HIGH_PRIORITY_CLASS);
    ("Above Normal", ABOVE_NORMAL_PRIORITY_CLASS);
    ("Normal", NORMAL_PRIORITY_CLASS);
    ("Below Normal", BELOW_NORMAL_PRIORITY_CLASS);
    ("Low", IDLE_PRIORITY_CLASS) ]%string.

Definition PRIORITY_LEVELS_Linux : list (string * nice_value) :=
  [ ("Very High", Nice (-10));
    ("High", Nice (-5));
    ("Above Normal", Nice (-2));
    ("Normal", Nice 0);
    ("Below Normal", Nice 5);
    ("Low", Nice 10) ]%string.

(** ** Samples *)

(** One entry of [processes_data]. *)
Record process_row : Type := mk_row
  { row_pid : Z;
    row_name : string;
    row_cpu : float;
    row_ram : float;
    row_score : float;
    row_status : option string }.

(** [proc.info] as [process_iter] fills it: every attribute asked for has its
    key (so the default of [proc_info.get('status', 'unknown')] is never
    used), and a value psutil could not read is [None]. *)
Record proc_info : Type := mk_info
  { info_pid : Z;
    info_name : option string;
    info_cpu_percent : option float;
    info_memory_percent : option float;
    info_status : option string }.

Record svmem : Type := mk_svmem
  { vm_percent : float; vm_total : Z; vm_used : Z; vm_available : Z }.

Record sdiskusage : Type := mk_disk
  { disk_percent : float; disk_total : Z; disk_used : Z; disk_free : Z }.

(** The dictionary handed to [update_system_stats]. *)
Record system_stats : Type := mk_stats
  { st_cpu : float;
    st_memory_percent : float;
    st_memory_total : Z;
    st_memory_used : Z;
    st_memory_available : Z;
    st_disk_percent : float;
    st_disk_total : Z;
    st_disk_used : Z;
    st_disk_free : Z }.

(** ** Observable calls *)

Inductive event : Type :=
| Enter_boost_process_priority (pid : Z) (priority_level : string)
| Call_Process (pid : Z)
| Call_nice (pid : Z) (v : nice_value)
| Call_terminate (pid : Z)
| Call_is_running (pid : Z)
| Call_kill (pid : Z)
| Call_sleep (secs : float)
| After_update_system_stats (stats : system_stats)
| After_update_process_list (processes_data : list process_row)
| Ask_string (title prompt : string)
| Ask_yes_no (title prompt : string)
| Show_info (title msg : string)
| Show_error (title msg : string)
| Show_warning (title msg : string)
| Status_label (text : string)
| Root_destroy.

(** ** The application object *)

Record gui_app : Type := mk_app
  { monitoring_active : bool;
    selected_pid : option Z;
    auto_boost_enabled : bool;
    auto_boost_threshold : float;
    auto_boost_level : string;
    action_history : deque string;
    (** the text widget of the history tab, once it exists *)
    history_text : option (list string) }.

Definition set_monitoring_active (b : bool) (a : gui_app) : gui_app :=
  mk_app b (selected_pid a) (auto_boost_enabled a) (auto_boost_threshold a)
    (auto_boost_level a) (action_history a) (history_text a).

Definition set_auto_boost_enabled (b : bool) (a : gui_app) : gui_app :=
  mk_app (monitoring_active a) (selected_pid a) b (auto_boost_threshold a)
    (auto_boost_level a) (action_history a) (history_text a).

Definition set_auto_boost_threshold (t : float) (a : gui_app) : gui_app :=
  mk_app (monitoring_active a) (selected_pid a) (auto_boost_enabled a) t
    (auto_boost_level a) (action_history a) (history_text a).

Definition set_auto_boost_level (l : string) (a : gui_app) : gui_app :=
  mk_app (monitoring_active a) (selected_pid a) (auto_boost_enabled a)
    (auto_boost_threshold a) l (action_history a) (history_text a).

Definition set_log (h : deque string) (t : option (list string)) (a : gui_app)
  : gui_app :=
  mk_app (monitoring_active a) (selected_pid a) (auto_boost_enabled a)
    (auto_boost_threshold a) (auto_boost_level a) h t.

(** The fields [__init__] sets before the GUI is built. *)
Definition init_app : gui_app :=
  {| monitoring_active := true;
     selected_pid := None;
     auto_boost_enabled := false;
     auto_boost_threshold := 50.0%float;
     auto_boost_level := "High"%string;
     action_history := mk_deque (Some 100%nat) [];
     history_text := None |}.

(** ** The monad: state, exceptions and a trace of calls

    An exception keeps the state and the trace reached when it was raised. *)

Definition M (A : Type) : Type := gui_app -> result A * gui_app * list event.

Definition ret {A : Type} (x : A) : M A := fun a => (Ok x, a, []).

Definition bind {A B : Type} (m : M A) (k : A -> M B) : M B :=
  fun a =>
    match m a with
    | (Ok x, a1, t1) =>
        match k x a1 with
        | (r, a2, t2) => (r, a2, t1 ++ t2)
        end
    | (Raise e, a1, t1) => (Raise e, a1, t1)
    end.

Notation "x <- m ;; k" := (bind m (fun x => k))
  (at level 61, m at next level, right associativity).
Notation "m ;; k" := (bind m (fun _ => k))
  (at level 61, right associativity).

Definition raise {A : Type} (e : exn) : M A := fun a => (Raise e, a, []).
Definition emit (ev : event) : M unit := fun a => (Ok tt, a, [ev]).
Definition gets {A : Type} (f : gui_app -> A) : M A := fun a => (Ok (f a), a, []).
Definition modify (f : gui_app -> gui_app) : M unit := fun a => (Ok tt, f a, []).

(** [try: m  except Exception: h]. *)
Definition try_except {A : Type} (m : M A) (h : exn -> M A) : M A :=
  fun a =>
    match m a with
    | (Ok x, a1, t1) => (Ok x, a1, t1)
    | (Raise e, a1, t1) =>
        match h e a1 with
        | (r, a2, t2) => (r, a2, t1 ++ t2)
        end
    end.

(** A call that either returns or raises, as the oracle says. *)
Definition outcome (o : option exn) : M unit :=
  match o with
  | None => ret tt
  | Some e => raise e
  end.

Definition lift_result {A : Type} (r : result A) : M A :=
  match r with
  | Ok x => ret x
  | Raise e => raise e
  end.

(** [time.sleep(secs)], with [secs] in seconds: 1 in the loop, 0.5 in
    [kill_process]. *)
Definition time_sleep (secs : float) : M unit := emit (Call_sleep secs).

(** ** The operating system, as psutil shows it *)

Record os_iface : Type := mk_os
  { os_Process : Z -> option exn;
    os_nice : Z -> nice_value -> option exn;
    os_terminate : Z -> option exn;
    os_is_running : Z -> bool;
    os_kill : Z -> option exn }.

(** ** Scoring *)

Definition calculate_score (cpu_percent ram_percent : float) : float :=
  let score := (0.6 * cpu_percent + 0.4 * ram_percent)%float in
  score.

(** ** Logging *)

(** [log_action]; [now] is the clock reading already formatted by
    [strftime]. *)
Definition log_action (now : string) (message : string) : M unit :=
  let timestamp := now in
  let log_entry := ("[" +++ timestamp +++ "] " +++ message +++ newline)%string in
  modify (fun a =>
    set_log (deque_append (action_history a) log_entry)
      (match history_text a with
       | Some t => Some (t ++ [log_entry])
       | None => None
       end) a).

Section Accessor.

Variable sys_platform : platform.
Variable os : os_iface.

Definition new_Process (pid : Z) : M unit :=
  emit (Call_Process pid) ;; outcome (os_Process os pid).

Definition process_nice (pid : Z) (v : nice_value) : M unit :=
  emit (Call_nice pid v) ;; outcome (os_nice os pid v).

Definition boost_process_priority (pid : Z) (priority_level : string) : M bool :=
  emit (Enter_boost_process_priority pid priority_level) ;;
  try_except
    (new_Process pid ;;
     match sys_platform with
     | win32 =>
         let priority_map := PRIORITY_LEVELS_Windows in
         match dict_get priority_level priority_map with
         | Some v => process_nice pid v
         | None => process_nice pid HIGH_PRIORITY_CLASS
         end
     | posix =>
         let priority_map := PRIORITY_LEVELS_Linux in
         match dict_get priority_level priority_map with
         | Some v => process_nice pid v
         | None => process_nice pid (Nice (-5))
         end
     end ;;
     ret true)
    (fun _ => ret false).

Definition kill_process (pid : Z) : M bool :=
  try_except
    (new_Process pid ;;
     emit (Call_terminate pid) ;; outcome (os_terminate os pid) ;;
     time_sleep 0.5%float ;;
     emit (Call_is_running pid) ;;
     (if os_is_running os pid
      then emit (Call_kill pid) ;; outcome (os_kill os pid)
      else ret tt) ;;
     ret true)
    (fun _ => ret false).

End Accessor.

(** ** The GUI thread

    The settings window, the close handler and the command buttons run on the
    main thread while [monitor_processes] runs on its own; what the main
    thread does to the shared application object is a sequence of steps, each
    one attribute write or one call. *)

Inductive gui_step : Type :=
| Set_monitoring_active (b : bool)
| Set_auto_boost_enabled (b : bool)
| Set_auto_boost_threshold (t : float)
| Set_auto_boost_level (l : string)
| Gui_log_action (now message : string)
| Gui_show_info (title msg : string)
| Gui_show_error (title msg : string)
| Gui_root_destroy.

Definition run_gui_step (s : gui_step) : M unit :=
  match s with
  | Set_monitoring_active b => modify (set_monitoring_active b)
  | Set_auto_boost_enabled b => modify (set_auto_boost_enabled b)
  | Set_auto_boost_threshold t => modify (set_auto_boost_threshold t)
  | Set_auto_boost_level l => modify (set_auto_boost_level l)
  | Gui_log_action now message => log_action now message
  | Gui_show_info title msg => emit (Show_info title msg)
  | Gui_show_error title msg => emit (Show_error title msg)
  | Gui_root_destroy => emit Root_destroy
  end.

Fixpoint gui_thread (steps : list gui_step) : M unit :=
  match steps with
  | [] => ret tt
  | s :: rest => run_gui_step s ;; gui_thread rest
  end.

(** [SettingsWindow.save_settings]; [threshold_var] is [None] when [float]
    raises [ValueError] on the text of the entry. *)
Definition save_settings (auto_boost_var : bool) (threshold_var : option float)
    (priority_var : string) : list gui_step :=
  Set_auto_boost_enabled auto_boost_var ::
  match threshold_var with
  | Some t =>
      [ Set_auto_boost_threshold t;
        Set_auto_boost_level priority_var;
        Gui_show_info "Success" "Settings saved successfully!" ]
  | None =>
      [ Gui_show_error "Error" "Invalid threshold value. Please enter a number." ]
  end.

Definition on_closing (now : string) : list gui_step :=
  [ Set_monitoring_active false;
    Gui_log_action now "Application closed";
    Gui_root_destroy ].

(** ** The monitoring thread *)

(** What the main thread does while the monitoring thread evaluates one
    process: before it reads [auto_boost_enabled], before it reads
    [auto_boost_threshold] and before it reads [auto_boost_level]. *)
Record interference : Type := mk_interference
  { before_enabled : list gui_step;
    before_threshold : list gui_step;
    before_level : list gui_step }.

Definition quiet : interference := mk_interference [] [] [].

(** One process yielded by [process_iter].  The body of the inner [try] either
    raises while it reads the process (before it has done anything: what
    follows the reading is the boost, which sits in a [try] of its own, and an
    [append]) or gets its [info]; [item_now] is the clock reading should an
    action be logged. *)
Record proc_item : Type := mk_item
  { item_info : result proc_info;
    item_now : string }.

(** What the outside world answers during one pass.  The generator
    [psutil.process_iter] yields the processes of [env_processes] one after
    the other and then is either exhausted or raises ([env_process_iter]):
    it is advanced in the header of the [for], outside the inner [try]. *)
Record pass_env : Type := mk_pass
  { env_cpu_percent : result float;
    env_virtual_memory : result svmem;
    env_disk_usage : result sdiskusage;
    env_after_stats : option exn;
    env_processes : list (interference * proc_item);
    env_process_iter : option exn;
    env_after_list : option exn }.

(** [gui_app.root.after(0, callback, arg)]: the callback is scheduled unless
    the call raises. *)
Definition root_after (scheduled : event) (o : option exn) : M unit :=
  match o with
  | None => emit scheduled
  | Some e => raise e
  end.

(** One turn of the loop of [monitor_processes]. *)
Inductive loop_env : Type := mk_turn
  { gui_before_check : list gui_step;
    turn_pass : pass_env }.

Inductive loop_status : Type := Stopped | Still_running.

Section Monitor.

Variable sys_platform : platform.
Variable os : os_iface.

(** The body of the [for] loop. *)
Definition sample_process (w : interference) (proc : proc_item)
    (processes_data : list process_row) : M (list process_row) :=
  try_except
    (proc_info <- lift_result (item_info proc) ;;
     let pid := info_pid proc_info in
     let name := string_or (info_name proc_info) "N/A" in
     let cpu_percent := float_or (info_cpu_percent proc_info) 0.0%float in
     let ram_percent := float_or (info_memory_percent proc_info) 0.0%float in
     let status := info_status proc_info in
     let score := calculate_score cpu_percent ram_percent in
     gui_thread (before_enabled w) ;;
     enabled <- gets auto_boost_enabled ;;
     (if enabled then
        gui_thread (before_threshold w) ;;
        threshold <- gets auto_boost_threshold ;;
        if PrimFloat.ltb threshold score then
          try_except
            (gui_thread (before_level w) ;;
             level <- gets auto_boost_level ;;
             boost_process_priority sys_platform os pid level ;;
             log_action (item_now proc)
               ("Auto-boosted PID " +++ str_int pid +++ " (" +++ name
                  +++ ") - Score: " +++ format_2f score))
            (fun _ => ret tt)
        else ret tt
      else ret tt) ;;
     ret (processes_data
            ++ [mk_row pid name cpu_percent ram_percent score status]))
    (fun _ => ret processes_data).

(** The iterations of the [for] loop over the processes the generator
    yielded. *)
Fixpoint for_each_process (procs : list (interference * proc_item))
    (processes_data : list process_row) : M (list process_row) :=
  match procs with
  | [] => ret processes_data
  | (w, proc) :: rest =>
      processes_data' <- sample_process w proc processes_data ;;
      for_each_process rest processes_data'
  end.

(** The [for] loop: the iterations over what the generator yielded, then the
    generator's end, which leaves the loop or raises out of it. *)
Definition for_proc_in_process_iter (procs : list (interference * proc_item))
    (process_iter_end : option exn) (processes_data : list process_row)
  : M (list process_row) :=
  processes_data' <- for_each_process procs processes_data ;;
  outcome process_iter_end ;;
  ret processes_data'.

(** The body of the outer [try]. *)
Definition monitor_pass (env : pass_env) : M unit :=
  let processes_data := [] in
  system_cpu <- lift_result (env_cpu_percent env) ;;
  system_memory <- lift_result (env_virtual_memory env) ;;
  let system_disk :=
    match env_disk_usage env with
    | Ok d => d
    | Raise _ => mk_disk 0%float 0 0 0
    end in
  root_after
    (After_update_system_stats
       (mk_stats system_cpu (vm_percent system_memory)
          (vm_total system_memory) (vm_used system_memory)
          (vm_available system_memory) (disk_percent system_disk)
          (disk_total system_disk) (disk_used system_disk)
          (disk_free system_disk)))
    (env_after_stats env) ;;
  processes_data <- for_proc_in_process_iter (env_processes env)
                      (env_process_iter env) processes_data ;;
  root_after (After_update_process_list processes_data) (env_after_list env) ;;
  time_sleep 1%float.

(** One turn of the [while] loop once the flag was found set. *)
Definition monitor_turn (env : pass_env) : M unit :=
  try_except (monitor_pass env) (fun _ => time_sleep 1%float).

(** [monitor_processes] over the turns of an observation window; the window
    ends with the loop either left ([Stopped]) or about to test its flag
    again ([Still_running]). *)
Fixpoint monitor_processes (schedule : list loop_env) : M loop_status :=
  match schedule with
  | [] => ret Still_running
  | turn :: rest =>
      gui_thread (gui_before_check turn) ;;
      active <- gets monitoring_active ;;
      if active then
        monitor_turn (turn_pass turn) ;;
        monitor_processes rest
      else ret Stopped
  end.

(** ** Commands of the main window *)

Definition platform_priority_map : list (string * nice_value) :=
  match sys_platform with
  | win32 => PRIORITY_LEVELS_Windows
  | posix => PRIORITY_LEVELS_Linux
  end.

(** [boost_selected_process]; [answer] is what [askstring] returns. *)
Definition boost_selected_process (answer : option string) (now : string)
  : M unit :=
  sel <- gets selected_pid ;;
  match sel with
  | None => emit (Show_warning "No Selection" "Please select a process first.")
  | Some pid =>
      let priority_map := platform_priority_map in
      emit (Ask_string "Priority Level"
              ("Select priority level:" +++ newline
                 +++ join ", " (dict_keys priority_map) +++ newline +++ newline
                 +++ "Enter priority (default: High):")) ;;
      match answer with
      | None => ret tt
      | Some priority =>
          let priority :=
            if dict_mem priority priority_map then priority else "High"%string in
          try_except
            (success <- boost_process_priority sys_platform os pid priority ;;
             if success then
               emit (Show_info "Success"
                       ("Process " +++ str_int pid +++ " priority set to "
                          +++ priority +++ "!")) ;;
               log_action now
                 ("Boosted PID " +++ str_int pid +++ " to " +++ priority
                    +++ " priority") ;;
               emit (Status_label
                       ("Status: Process " +++ str_int pid +++ " boosted to "
                          +++ priority))
             else
               emit (Show_error "Error"
                       ("Failed to boost process " +++ str_int pid +++ ".")) ;;
               log_action now ("Failed to boost PID " +++ str_int pid))
            (fun e =>
               emit (Show_error "Error" ("An error occurred: " +++ str_exn e)))
      end
  end.


End Monitor.

(** ** The history tab *)

(** [clear_history]; [confirmed] is what [askyesno] returns. *)
Definition clear_history (confirmed : bool) : M unit :=
  emit (Ask_yes_no "Confirm" "Clear all history?") ;;
  if confirmed then
    modify (fun a =>
      set_log (mk_deque (dq_maxlen (action_history a)) [])
        (match history_text a with
         | Some _ => Some []
         | None => None
         end) a)
  else ret tt.

(** What [export_logs] does outside the application object: the dialogs it
    shows and the file it writes. *)
Inductive file_event : Type :=
| Window_event (ev : event)
| Ask_save_as_filename (defaultextension : string)
| Write_lines (filename : string) (lines : list string).

(** [export_logs]; [filename] is what [asksaveasfilename] returns, the empty
    string when the dialog is cancelled, and [io] tells whether opening or
    writing the file raises (what the file then holds is left open). *)
Definition export_logs (filename : string) (io : option exn) (a : gui_app)
  : list file_event :=
  match dq_items (action_history a) with
  | [] => [Window_event (Show_warning "No Logs" "No logs to export.")]
  | _ :: _ =>
      Ask_save_as_filename ".txt" ::
      if String.eqb filename "" then []
      else
        match io with
        | None =>
            [ Write_lines filename (dq_items (action_history a));
              Window_event (Show_info "Success" ("Logs exported to " +++ filename)) ]
        | Some e =>
            [ Window_event
                (Show_error "Error" ("Failed to export: " +++ str_exn e)) ]
        end
  end.

(** * Properties *)

(** ** Reading an outcome *)

Definition value_of {A : Type} (o : result A * gui_app * list event) : result A :=
  fst (fst o).
Definition state_of {A : Type} (o : result A * gui_app * list event) : gui_app :=
  snd (fst o).
Definition trace_of {A : Type} (o : result A * gui_app * list event) : list event :=
  snd o.

(** The calls of [boost_process_priority] a trace records, in order. *)
Definition boost_calls (tr : list event) : list (Z * string) :=
  flat_map (fun ev =>
              match ev with
              | Enter_boost_process_priority pid level => [(pid, level)]
              | _ => []
              end) tr.

(** The process lists handed to [update_process_list]. *)
Definition published_lists (tr : list event) : list (list process_row) :=
  flat_map (fun ev =>
              match ev with
              | After_update_process_list data => [data]
              | _ => []
              end) tr.

(** The arguments of the [time.sleep] calls. *)
Definition sleeps (tr : list event) : list float :=
  flat_map (fun ev =>
              match ev with
              | Call_sleep secs => [secs]
              | _ => []
              end) tr.

(** Events that are neither a sleep nor a hand-off to the GUI. *)
Definition inner_event (ev : event) : bool :=
  match ev with
  | Call_sleep _ | After_update_system_stats _ | After_update_process_list _ => false
  | _ => true
  end.

(** Events that are not a call of [boost_process_priority]. *)
Definition not_boost (ev : event) : bool :=
  match ev with
  | Enter_boost_process_priority _ _ => false
  | _ => true
  end.

(** The sample the loop body builds from a process's [info]. *)
Definition row_of (i : proc_info) : process_row :=
  let cpu := float_or (info_cpu_percent i) 0.0%float in
  let ram := float_or (info_memory_percent i) 0.0%float in
  mk_row (info_pid i) (string_or (info_name i) "N/A") cpu ram
    (calculate_score cpu ram) (info_status i).

Definition rows_of_item (p : proc_item) : list process_row :=
  match item_info p with
  | Ok i => [row_of i]
  | Raise _ => []
  end.

(** The samples of the processes whose reading did not raise. *)
Definition rows_of (procs : list (interference * proc_item)) : list process_row :=
  flat_map (fun wp => rows_of_item (snd wp)) procs.

(** The test of the [if] of the loop body on the configuration held by [a]. *)
Definition auto_boosts (a : gui_app) (r : process_row) : bool :=
  auto_boost_enabled a && PrimFloat.ltb (auto_boost_threshold a) (row_score r).

Definition auto_boost_message (r : process_row) : string :=
  ("Auto-boosted PID " +++ str_int (row_pid r) +++ " (" +++ row_name r
     +++ ") - Score: " +++ format_2f (row_score r))%string.

Definition log_entry (now message : string) : string :=
  ("[" +++ now +++ "] " +++ message +++ newline)%string.

(** Several [log_action] calls in a row, each with its clock reading. *)
Fixpoint log_all (entries : list (string * string)) : M unit :=
  match entries with
  | [] => ret tt
  | (now, message) :: rest => log_action now message ;; log_all rest
  end.

(** ** The specification's policy engine *)

Record PolicyConfig : Type := mk_config
  { autoBoostEnabled : bool;
    threshold : float;
    boostLevel : string }.

Definition config_of (a : gui_app) : PolicyConfig :=
  mk_config (auto_boost_enabled a) (auto_boost_threshold a) (auto_boost_level a).

(** The policy as the specification words it: the configuration is one value,
    read at the top of the pass and applied to every sample of the pass. *)
Definition policy_on_snapshot (c : PolicyConfig) (rows : list process_row)
  : list (Z * string) :=
  if autoBoostEnabled c
  then map (fun r => (row_pid r, boostLevel c))
         (filter (fun r => PrimFloat.ltb (threshold c) (row_score r)) rows)
  else [].

(** ** What a call of [boost_process_priority] does *)

(** The value that reaches [Process.nice] for a level name. *)
Definition nice_for (sys_platform : platform) (level : string) : nice_value :=
  match sys_platform with
  | win32 =>
      match dict_get level PRIORITY_LEVELS_Windows with
      | Some v => v
      | None => HIGH_PRIORITY_CLASS
      end
  | posix =>
      match dict_get level PRIORITY_LEVELS_Linux with
      | Some v => v
      | None => Nice (-5)
      end
  end.

Definition boost_succeeds (sys_platform : platform) (os : os_iface) (pid : Z)
    (level : string) : bool :=
  match os_Process os pid with
  | Some _ => false
  | None =>
      match os_nice os pid (nice_for sys_platform level) with
      | Some _ => false
      | None => true
      end
  end.

Definition boost_trace (sys_platform : platform) (os : os_iface) (pid : Z)
    (level : string) : list event :=
  Enter_boost_process_priority pid level :: Call_Process pid ::
  match os_Process os pid with
  | Some _ => []
  | None => [Call_nice pid (nice_for sys_platform level)]
  end.

(** A pass during which the main thread does nothing. *)
Definition undisturbed (procs : list proc_item) : list (interference * proc_item) :=
  map (fun p => (quiet, p)) procs.

(** The dictionary a pass hands to [update_system_stats]. *)
Definition stats_of (system_cpu : float) (system_memory : svmem)
    (disk : result sdiskusage) : system_stats :=
  let system_disk :=
    match disk with
    | Ok d => d
    | Raise _ => mk_disk 0%float 0 0 0
    end in
  mk_stats system_cpu (vm_percent system_memory) (vm_total system_memory)
    (vm_used system_memory) (vm_available system_memory)
    (disk_percent system_disk) (disk_total system_disk) (disk_used system_disk)
    (disk_free system_disk).

(** The pass-level calls of a pass all return: the two system readings, the
    enumeration of the processes and the two hand-offs to the GUI. *)
Definition pass_calls_return (env : pass_env) : Prop :=
  (exists cpu, env_cpu_percent env = Ok cpu)
  /\ (exists vm, env_virtual_memory env = Ok vm)
  /\ env_after_stats env = None
  /\ env_process_iter env = None
  /\ env_after_list env = None.

(** The [info] of the processes whose reading did not raise. *)
Definition survivors (procs : list (interference * proc_item)) : list proc_info :=
  flat_map (fun wp =>
              match item_info (snd wp) with
              | Ok i => [i]
              | Raise _ => []
              end) procs.

(** "The pass completes and publishes the samples of the surviving
    processes", as a property of one turn of the loop. *)
Definition pass_publishes_survivors (sys_platform : platform) (os : os_iface)
    (env : pass_env) (a : gui_app) : Prop :=
  published_lists (trace_of (monitor_turn sys_platform os env a))
  = [map row_of (survivors (env_processes env))].

(** "A user-initiated boost that names an unmappable level sets no priority
    and reports no success", as a property of one run of the command. *)
Definition reports_unsupported_without_fallback (sys_platform : platform)
    (os : os_iface) (priority now : string) (a : gui_app) : Prop :=
  let tr := trace_of (boost_selected_process sys_platform os (Some priority) now a) in
  (forall pid v, ~ In (Call_nice pid v) tr)
  /\ (forall title msg, ~ In (Show_info title msg) tr).

(** "One pass applies one configuration": the calls of the pass are those the
    specification's policy engine makes on some single configuration. *)
Definition pass_applies_one_config (sys_platform : platform) (os : os_iface)
    (procs : list (interference * proc_item)) (a : gui_app) : Prop :=
  exists c : PolicyConfig,
    boost_calls (trace_of (for_each_process sys_platform os procs [] a))
    = policy_on_snapshot c (rows_of procs).

(** ** What a call of [kill_process] does *)

(** Whether [kill_process] returns [True], from what the operating system
    answers. *)
Definition kill_succeeds (os : os_iface) (pid : Z) : bool :=
  match os_Process os pid, os_terminate os pid with
  | None, None =>
      if os_is_running os pid
      then match os_kill os pid with None => true | Some _ => false end
      else true
  | _, _ => false
  end.

(** The calls [kill_process] makes. *)
Definition kill_trace (os : os_iface) (pid : Z) : list event :=
  Call_Process pid ::
  match os_Process os pid with
  | Some _ => []
  | None =>
      Call_terminate pid ::
      match os_terminate os pid with
      | Some _ => []
      | None =>
          Call_sleep 0.5%float :: Call_is_running pid ::
          (if os_is_running os pid then [Call_kill pid] else [])
      end
  end.

(** ** The action log *)

(** The entries an undisturbed pass logs on the configuration held by [a]. *)
Definition auto_boost_entries (a : gui_app) (procs : list proc_item) : list string :=
  flat_map (fun p =>
              match item_info p with
              | Ok i =>
                  if auto_boosts a (row_of i)
                  then [log_entry (item_now p) (auto_boost_message (row_of i))]
                  else []
              | Raise _ => []
              end) procs.

(** The log lines of a sequence of [log_action] calls. *)
Definition entries_of (entries : list (string * string)) : list string :=
  map (fun e => log_entry (fst e) (snd e)) entries.

(** The files a run of [export_logs] writes. *)
Definition written_lines (tr : list file_event) : list (string * list string) :=
  flat_map (fun ev =>
              match ev with
              | Write_lines filename lines => [(filename, lines)]
              | _ => []
              end) tr.

(** ** Stop requests *)

(** The stop flag is up. *)
Definition flag_up (a : gui_app) : Prop := monitoring_active a = true.

(** The one step of the main thread that asks the loop to stop. *)
Definition clears_flag (s : gui_step) : bool :=
  match s with
  | Set_monitoring_active false => true
  | _ => false
  end.

Definition keeps_flag (steps : list gui_step) : bool :=
  forallb (fun s => negb (clears_flag s)) steps.

Definition interference_steps (w : interference) : list gui_step :=
  before_enabled w ++ before_threshold w ++ before_level w.

(** Everything the main thread does during one turn of the loop. *)
Definition turn_steps (turn : loop_env) : list gui_step :=
  gui_before_check turn
  ++ flat_map (fun wp => interference_steps (fst wp))
       (env_processes (turn_pass turn)).

(** No stop request is made during the window. *)
Definition no_stop_request (schedule : list loop_env) : Prop :=
  keeps_flag (flat_map turn_steps schedule) = true.

(** The steps of the main thread that write no configuration field. *)
Definition keeps_config (steps : list gui_step) : bool :=
  forallb (fun s =>
             match s with
             | Set_auto_boost_enabled _ | Set_auto_boost_threshold _
             | Set_auto_boost_level _ => false
             | _ => true
             end) steps.

(** ** Worked inputs *)

(** An operating system that grants every request; a process that was asked
    to terminate is still running after the grace period. *)
Definition os_granting : os_iface :=
  mk_os (fun _ => None) (fun _ _ => None) (fun _ => None) (fun _ => true)
    (fun _ => None).

(** An operating system that refuses every change of priority. *)
Definition os_denying : os_iface :=
  mk_os (fun _ => None) (fun _ _ => Some (AccessDenied "psutil.AccessDenied"))
    (fun _ => None) (fun _ => true) (fun _ => None).

Definition proc_ok (pid : Z) (cpu ram : float) : proc_item :=
  mk_item (Ok (mk_info pid (Some "worker"%string) (Some cpu) (Some ram)
                 (Some "running"%string)))
    "2024-01-01 12:00:00".

Definition proc_gone (pid : Z) : proc_item :=
  mk_item (Raise (NoSuchProcess "process no longer exists"))
    "2024-01-01 12:00:00".

(** A process of which psutil could read nothing but the pid. *)
Definition proc_without_metrics : proc_item :=
  mk_item (Ok (mk_info 9 None None None None)) "2024-01-01 12:00:00".

Definition app_auto_boost : gui_app := set_auto_boost_enabled true init_app.

(** Four processes scoring 10, 51, 80 and 50. *)
Definition procs_10_51_80_50 : list proc_item :=
  [ proc_ok 1 0 25; proc_ok 2 0 127.5; proc_ok 3 0 200; proc_ok 4 0 125 ]%float.

(** Ten enumerated processes, three of which are gone when read. *)
Definition ten_procs_three_gone : list proc_item :=
  [ proc_ok 1 1 1; proc_gone 2; proc_ok 3 1 1; proc_ok 4 1 1; proc_gone 5;
    proc_ok 6 1 1; proc_ok 7 1 1; proc_gone 8; proc_ok 9 1 1; proc_ok 10 1 1 ]%float.

Definition vm_sample : svmem := mk_svmem 40%float 16000 6400 9600.
Definition disk_sample : sdiskusage := mk_disk 50%float 1000 500 500.

(** A pass all of whose pass-level calls return. *)
Definition env_healthy (procs : list (interference * proc_item)) : pass_env :=
  mk_pass (Ok 12.5%float) (Ok vm_sample) (Ok disk_sample) None procs None None.

(** A pass whose first hand-off to the GUI raises. *)
Definition env_gui_gone (procs : list (interference * proc_item)) : pass_env :=
  mk_pass (Ok 12.5%float) (Ok vm_sample) (Ok disk_sample)
    (Some (Exception "main thread is not in main loop")) procs None None.

(** The application with process 42 selected in the table. *)
Definition app_selected_42 : gui_app :=
  mk_app true (Some 42%Z) false 50%float "High" (mk_deque (Some 100%nat) []) None.

(** Two processes scoring 80; while the second is evaluated the user saves
    the settings with auto-boost unticked. *)
Definition procs_settings_saved_mid_pass : list (interference * proc_item) :=
  [ (quiet, proc_ok 1 0 200);
    (mk_interference (save_settings false (Some 50%float) "High") [] [],
     proc_ok 2 0 200) ]%float.

(** [n] log requests, numbered from 0, all made at the same clock reading. *)
Definition numbered_entries (n : nat) : list (string * string) :=
  map (fun j => ("2024-01-01 12:00:00"%string, str_int (Z.of_nat j))) (seq 0 n).

(** Three turns without a stop request: a pass that completes, a pass whose
    memory reading raises, and a pass whose hand-off to the GUI raises. *)
Definition three_turns_two_failing : list loop_env :=
  [ mk_turn [] (env_healthy (undisturbed ten_procs_three_gone));
    mk_turn [] (mk_pass (Ok 12.5%float) (Raise (Exception "cannot read meminfo"))
                  (Ok disk_sample) None (undisturbed procs_10_51_80_50) None None);
    mk_turn [] (env_gui_gone (undisturbed procs_10_51_80_50)) ].

(** Two turns, the window being closed before the second. *)
Definition closed_before_second_turn : list loop_env :=
  [ mk_turn [] (env_healthy (undisturbed procs_10_51_80_50));
    mk_turn (on_closing "2024-01-01 12:00:01")
      (env_healthy (undisturbed procs_10_51_80_50)) ].

(** Two processes scoring 80; the window is closed while the second is
    evaluated. *)
Definition procs_closed_mid_pass : list (interference * proc_item) :=
  [ (quiet, proc_ok 1 0 200);
    (mk_interference [] (on_closing "2024-01-01 12:00:00") [], proc_ok 2 0 200) ]%float.

(** A pass whose disk reading raises. *)
Definition env_disk_unreadable (procs : list (interference * proc_item)) : pass_env :=
  mk_pass (Ok 12.5%float) (Ok vm_sample) (Raise (Exception "disk not found"))
    None procs None None.

(** The initial application once the history tab exists. *)
Definition app_with_history_tab : gui_app :=
  set_log (action_history init_app) (Some []) init_app.

(** ** Laws of the monad *)

Definition never_raises {A : Type} (m : M A) : Prop :=
  forall a, exists x, value_of (m a) = Ok x.

Definition returns {A : Type} (m : M A) (y : A) : Prop :=
  forall a, value_of (m a) = Ok y.

(** [I] survives whatever [m] does to the application object. *)
Definition invariant {A : Type} (I : gui_app -> Prop) (m : M A) : Prop :=
  forall a, I a -> I (state_of (m a)).

Definition emits_only {A : Type} (P : event -> bool) (m : M A) : Prop :=
  forall a, forallb P (trace_of (m a)) = true.

Lemma never_raises_unit (m : M unit) :
  never_raises m -> returns m tt.
Proof.
  intros H a. destruct (H a) as [[] Hx]. exact Hx.
Qed.

Lemma never_raises_bind {A B : Type} (m : M A) (k : A -> M B) :
  never_raises m -> (forall x, never_raises (k x)) -> never_raises (bind m k).
Proof.
  intros Hm Hk a. unfold bind, value_of in *.
  destruct (Hm a) as [x Hx]. destruct (m a) as [[r a1] t1].
  unfold value_of in Hx. simpl in Hx. subst r.
  destruct (Hk x a1) as [y Hy]. destruct (k x a1) as [[r a2] t2].
  unfold value_of in Hy. simpl in *. exists y. exact Hy.
Qed.

Lemma returns_bind {A B : Type} (m : M A) (k : A -> M B) (y : B) :
  never_raises m -> (forall x, returns (k x) y) -> returns (bind m k) y.
Proof.
  intros Hm Hk a. unfold bind, value_of in *.
  destruct (Hm a) as [x Hx]. destruct (m a) as [[r a1] t1].
  unfold value_of in Hx. simpl in Hx. subst r.
  specialize (Hk x a1). destruct (k x a1) as [[r a2] t2].
  unfold value_of in Hk. simpl in *. exact Hk.
Qed.

Lemma never_raises_try_except {A : Type} (m : M A) (h : exn -> M A) :
  (forall e, never_raises (h e)) -> never_raises (try_except m h).
Proof.
  intros Hh a. unfold try_except, value_of.
  destruct (m a) as [[[x | e] a1] t1]; simpl.
  - exists x. reflexivity.
  - destruct (Hh e a1) as [y Hy]. destruct (h e a1) as [[r a2] t2].
    unfold value_of in Hy. simpl in *. exists y. exact Hy.
Qed.

Lemma emits_only_bind {A B : Type} (P : event -> bool) (m : M A) (k : A -> M B) :
  emits_only P m -> (forall x, emits_only P (k x)) -> emits_only P (bind m k).
Proof.
  intros Hm Hk a. unfold bind, trace_of in *.
  specialize (Hm a). destruct (m a) as [[[x | e] a1] t1]; simpl in *.
  - specialize (Hk x a1). destruct (k x a1) as [[r a2] t2]. simpl in *.
    rewrite forallb_app, Hm, Hk. reflexivity.
  - exact Hm.
Qed.

Lemma emits_only_try_except {A : Type} (P : event -> bool) (m : M A)
    (h : exn -> M A) :
  emits_only P m -> (forall e, emits_only P (h e)) -> emits_only P (try_except m h).
Proof.
  intros Hm Hh a. unfold try_except, trace_of in *.
  specialize (Hm a). destruct (m a) as [[[x | e] a1] t1]; simpl in *.
  - exact Hm.
  - specialize (Hh e a1). destruct (h e a1) as [[r a2] t2]. simpl in *.
    rewrite forallb_app, Hm, Hh. reflexivity.
Qed.

Lemma emits_only_ret {A : Type} (P : event -> bool) (x : A) : emits_only P (ret x).
Proof. intros a. reflexivity. Qed.

Lemma emits_only_raise {A : Type} (P : event -> bool) (e : exn) :
  emits_only P (@raise A e).
Proof. intros a. reflexivity. Qed.

Lemma emits_only_gets {A : Type} (P : event -> bool) (f : gui_app -> A) :
  emits_only P (gets f).
Proof. intros a. reflexivity. Qed.

Lemma emits_only_modify (P : event -> bool) (f : gui_app -> gui_app) :
  emits_only P (modify f).
Proof. intros a. reflexivity. Qed.

Lemma emits_only_emit (P : event -> bool) (ev : event) :
  P ev = true -> emits_only P (emit ev).
Proof. intros H a. simpl. rewrite H. reflexivity. Qed.

Lemma emits_only_outcome (P : event -> bool) (o : option exn) :
  emits_only P (outcome o).
Proof. destruct o; intros a; reflexivity. Qed.

Lemma emits_only_lift_result {A : Type} (P : event -> bool) (r : result A) :
  emits_only P (lift_result r).
Proof. destruct r; intros st; reflexivity. Qed.

Lemma emits_only_log_action (P : event -> bool) (now message : string) :
  emits_only P (log_action now message).
Proof. intros a. reflexivity. Qed.

Lemma never_raises_ret {A : Type} (x : A) : never_raises (ret x).
Proof. intros a. exists x. reflexivity. Qed.

Lemma never_raises_emit (ev : event) : never_raises (emit ev).
Proof. intros a. exists tt. reflexivity. Qed.

Lemma never_raises_gets {A : Type} (f : gui_app -> A) : never_raises (gets f).
Proof. intros a. exists (f a). reflexivity. Qed.

Lemma never_raises_modify (f : gui_app -> gui_app) : never_raises (modify f).
Proof. intros a. exists tt. reflexivity. Qed.

Lemma never_raises_log_action (now message : string) :
  never_raises (log_action now message).
Proof. intros a. exists tt. reflexivity. Qed.

Create HintDb monad_laws.
#[local] Hint Resolve never_raises_bind never_raises_try_except never_raises_ret
  never_raises_emit never_raises_gets never_raises_modify never_raises_log_action
  emits_only_bind emits_only_try_except emits_only_ret emits_only_raise
  emits_only_gets emits_only_modify emits_only_outcome emits_only_lift_result
  emits_only_log_action : monad_laws.

Lemma never_raises_run_gui_step (s : gui_step) : never_raises (run_gui_step s).
Proof. destruct s; simpl; auto with monad_laws. Qed.

Lemma never_raises_gui_thread (steps : list gui_step) :
  never_raises (gui_thread steps).
Proof.
  induction steps as [| s rest IH]; simpl; auto with monad_laws.
  apply never_raises_bind; auto using never_raises_run_gui_step.
Qed.

Lemma emits_inner_gui_thread (P : event -> bool) (steps : list gui_step) :
  (forall t m, P (Show_info t m) = true) ->
  (forall t m, P (Show_error t m) = true) ->
  P Root_destroy = true ->
  emits_only P (gui_thread steps).
Proof.
  intros Hi He Hd.
  induction steps as [| s rest IH]; simpl; auto with monad_laws.
  apply emits_only_bind; [| intros; exact IH].
  destruct s; simpl; auto using emits_only_emit with monad_laws.
Qed.

Lemma returns_bind_val {A B : Type} (m : M A) (k : A -> M B) (x : A) (y : B) :
  returns m x -> returns (k x) y -> returns (bind m k) y.
Proof.
  intros Hm Hk a. specialize (Hm a). unfold bind, value_of in *.
  destruct (m a) as [[r a1] t1]. simpl in Hm. subst r.
  specialize (Hk a1). destruct (k x a1) as [[r a2] t2]. simpl in *. exact Hk.
Qed.

Lemma returns_try_except_ok {A : Type} (m : M A) (h : exn -> M A) (y : A) :
  returns m y -> returns (try_except m h) y.
Proof.
  intros Hm a. specialize (Hm a). unfold try_except, value_of in *.
  destruct (m a) as [[[x | e] a1] t1]; simpl in *; [exact Hm | discriminate].
Qed.

Lemma boost_calls_app (t1 t2 : list event) :
  boost_calls (t1 ++ t2) = boost_calls t1 ++ boost_calls t2.
Proof. apply flat_map_app. Qed.

Lemma published_lists_app (t1 t2 : list event) :
  published_lists (t1 ++ t2) = published_lists t1 ++ published_lists t2.
Proof. apply flat_map_app. Qed.

Lemma sleeps_app (t1 t2 : list event) :
  sleeps (t1 ++ t2) = sleeps t1 ++ sleeps t2.
Proof. apply flat_map_app. Qed.

Lemma inner_events_publish_nothing (tr : list event) :
  forallb inner_event tr = true -> published_lists tr = [] /\ sleeps tr = [].
Proof.
  induction tr as [| ev rest IH]; simpl; [auto |].
  intros H. apply andb_true_iff in H. destruct H as [Hev Hrest].
  destruct (IH Hrest) as [Hp Hs]. unfold published_lists, sleeps in *.
  destruct ev; simpl in *; try discriminate; auto.
Qed.

Lemma no_boost_events_no_calls (tr : list event) :
  forallb not_boost tr = true -> boost_calls tr = [].
Proof.
  induction tr as [| ev rest IH]; simpl; [auto |].
  intros H. apply andb_true_iff in H. destruct H as [Hev Hrest].
  destruct ev; simpl in *; try discriminate; auto.
Qed.

Section MonitorFacts.

Variable sys_platform : platform.
Variable os : os_iface.

Lemma boost_process_priority_run (pid : Z) (level : string) (a : gui_app) :
  boost_process_priority sys_platform os pid level a
  = (Ok (boost_succeeds sys_platform os pid level), a,
     boost_trace sys_platform os pid level).
Proof.
  unfold boost_process_priority, boost_succeeds, boost_trace, nice_for.
  destruct sys_platform.
  - destruct (dict_get level PRIORITY_LEVELS_Windows) as [v |];
      unfold new_Process, process_nice, try_except, bind, emit, outcome, ret, raise;
      destruct (os_Process os pid); try reflexivity;
      match goal with
      | |- context [os_nice os pid ?v] => destruct (os_nice os pid v)
      end; reflexivity.
  - destruct (dict_get level PRIORITY_LEVELS_Linux) as [v |];
      unfold new_Process, process_nice, try_except, bind, emit, outcome, ret, raise;
      destruct (os_Process os pid); try reflexivity;
      match goal with
      | |- context [os_nice os pid ?v] => destruct (os_nice os pid v)
      end; reflexivity.
Qed.

Lemma emits_inner_boost (pid : Z) (level : string) :
  emits_only inner_event (boost_process_priority sys_platform os pid level).
Proof.
  intros a. rewrite boost_process_priority_run. unfold boost_trace, trace_of.
  simpl. destruct (os_Process os pid); reflexivity.
Qed.

Lemma boost_calls_boost_trace (pid : Z) (level : string) :
  boost_calls (boost_trace sys_platform os pid level) = [(pid, level)].
Proof.
  unfold boost_trace. simpl. destruct (os_Process os pid); reflexivity.
Qed.

(** A process whose reading raises leaves no mark at all. *)
Lemma sample_process_raise (w : interference) (proc : proc_item) (e : exn)
    (acc : list process_row) (a : gui_app) :
  item_info proc = Raise e ->
  sample_process sys_platform os w proc acc a = (Ok acc, a, []).
Proof.
  intros H. unfold sample_process, try_except, bind. rewrite H. reflexivity.
Qed.

(** The loop body when the main thread keeps still. *)
Lemma sample_process_quiet_run (i : proc_info) (now : string)
    (acc : list process_row) (a : gui_app) :
  sample_process sys_platform os quiet (mk_item (Ok i) now) acc a
  = (Ok (acc ++ [row_of i]),
     (if auto_boosts a (row_of i)
      then state_of (log_action now (auto_boost_message (row_of i)) a)
      else a),
     (if auto_boosts a (row_of i)
      then boost_trace sys_platform os (info_pid i) (auto_boost_level a)
      else [])).
Proof.
  unfold sample_process, auto_boosts, row_of. simpl.
  unfold try_except at 1. unfold bind at 1. simpl.
  unfold bind at 1. simpl. unfold bind at 1. simpl.
  destruct (auto_boost_enabled a) eqn:He; simpl.
  - unfold bind at 1. unfold bind at 1. simpl. unfold bind at 1. simpl.
    destruct (PrimFloat.ltb (auto_boost_threshold a) _) eqn:Hlt; simpl.
    + unfold try_except, bind. simpl.
      rewrite boost_process_priority_run. simpl.
      rewrite !app_nil_r. reflexivity.
    + reflexivity.
  - reflexivity.
Qed.

Lemma returns_sample_process (w : interference) (proc : proc_item)
    (acc : list process_row) :
  returns (sample_process sys_platform os w proc acc) (acc ++ rows_of_item proc).
Proof.
  unfold rows_of_item. destruct (item_info proc) as [i | e] eqn:Hinfo.
  - unfold sample_process. rewrite Hinfo. apply returns_try_except_ok.
    apply returns_bind_val with (x := i); [intros a; reflexivity |].
    apply returns_bind; [apply never_raises_gui_thread |]. intros _.
    apply returns_bind; [apply never_raises_gets |]. intros enabled.
    apply returns_bind; [| intros _ a; reflexivity].
    destruct enabled; [| apply never_raises_ret].
    apply never_raises_bind; [apply never_raises_gui_thread |]. intros _.
    apply never_raises_bind; [apply never_raises_gets |]. intros thr.
    destruct (PrimFloat.ltb thr _); [| apply never_raises_ret].
    apply never_raises_try_except. intros _. apply never_raises_ret.
  - intros a. rewrite (sample_process_raise w proc e acc a Hinfo).
    unfold value_of. simpl. rewrite app_nil_r. reflexivity.
Qed.

Lemma emits_inner_sample_process (w : interference) (proc : proc_item)
    (acc : list process_row) :
  emits_only inner_event (sample_process sys_platform os w proc acc).
Proof.
  assert (Hgui : forall steps, emits_only inner_event (gui_thread steps))
    by (intros; apply emits_inner_gui_thread; reflexivity).
  unfold sample_process.
  apply emits_only_try_except; [| intros; apply emits_only_ret].
  apply emits_only_bind; [apply emits_only_lift_result |]. intros i.
  apply emits_only_bind; [apply Hgui |]. intros _.
  apply emits_only_bind; [apply emits_only_gets |]. intros enabled.
  apply emits_only_bind; [| intros; apply emits_only_ret].
  destruct enabled; [| apply emits_only_ret].
  apply emits_only_bind; [apply Hgui |]. intros _.
  apply emits_only_bind; [apply emits_only_gets |]. intros thr.
  destruct (PrimFloat.ltb thr _); [| apply emits_only_ret].
  apply emits_only_try_except; [| intros; apply emits_only_ret].
  apply emits_only_bind; [apply Hgui |]. intros _.
  apply emits_only_bind; [apply emits_only_gets |]. intros level.
  apply emits_only_bind; [apply emits_inner_boost |]. intros _.
  apply emits_only_log_action.
Qed.

Lemma returns_for_each_process (procs : list (interference * proc_item))
    (acc : list process_row) :
  returns (for_each_process sys_platform os procs acc) (acc ++ rows_of procs).
Proof.
  revert acc. induction procs as [| [w proc] rest IH]; intros acc; simpl.
  - intros a. unfold value_of. simpl. rewrite app_nil_r. reflexivity.
  - apply returns_bind_val with (x := acc ++ rows_of_item proc).
    + apply returns_sample_process.
    + unfold rows_of in *. simpl. rewrite app_assoc. apply IH.
Qed.

Lemma emits_inner_for_each_process (procs : list (interference * proc_item))
    (acc : list process_row) :
  emits_only inner_event (for_each_process sys_platform os procs acc).
Proof.
  revert acc. induction procs as [| [w proc] rest IH]; intros acc; simpl.
  - apply emits_only_ret.
  - apply emits_only_bind; [apply emits_inner_sample_process |].
    intros acc'. apply IH.
Qed.

(** The run of an undisturbed loop, spelled out: the configuration stays as
    it was, and the calls of [boost_process_priority] are those the test on
    that configuration selects. *)
Lemma for_each_process_undisturbed (procs : list proc_item)
    (acc : list process_row) (a : gui_app) :
  let o := for_each_process sys_platform os (undisturbed procs) acc a in
  config_of (state_of o) = config_of a
  /\ monitoring_active (state_of o) = monitoring_active a
  /\ boost_calls (trace_of o)
     = map (fun r => (row_pid r, auto_boost_level a))
         (filter (auto_boosts a) (rows_of (undisturbed procs))).
Proof.
  revert acc a. induction procs as [| [info now] rest IH]; intros acc a.
  - simpl. auto.
  - cbn [undisturbed map for_each_process]. fold (undisturbed rest).
    cbv zeta. unfold bind. destruct info as [i | e].
    + rewrite sample_process_quiet_run.
      set (a1 := if auto_boosts a (row_of i)
                 then state_of (log_action now (auto_boost_message (row_of i)) a)
                 else a).
      assert (Hcfg : config_of a1 = config_of a /\
                     monitoring_active a1 = monitoring_active a)
        by (subst a1; destruct (auto_boosts a (row_of i)); split; reflexivity).
      destruct Hcfg as [Hcfg Hact].
      specialize (IH (acc ++ [row_of i]) a1).
      destruct (for_each_process sys_platform os (undisturbed rest)
                  (acc ++ [row_of i]) a1) as [[r a2] t2].
      cbn [state_of trace_of fst snd] in *.
      destruct IH as (IH1 & IH2 & IH3).
      assert (Hsame : forall r0, auto_boosts a1 r0 = auto_boosts a r0).
      { intros r0. unfold auto_boosts. injection Hcfg as -> -> _. reflexivity. }
      assert (Hlvl : auto_boost_level a1 = auto_boost_level a)
        by (injection Hcfg as _ _ ->; reflexivity).
      split; [congruence |]. split; [congruence |].
      rewrite boost_calls_app, IH3, Hlvl.
      rewrite (filter_ext _ _ Hsame).
      unfold rows_of. cbn [flat_map snd rows_of_item item_info app filter].
      destruct (auto_boosts a (row_of i)); cbn [map];
        [rewrite boost_calls_boost_trace |]; reflexivity.
    + rewrite (sample_process_raise quiet (mk_item (Raise e) now) e acc a eq_refl).
      specialize (IH acc a).
      destruct (for_each_process sys_platform os (undisturbed rest) acc a)
        as [[r a2] t2].
      cbn [state_of trace_of fst snd app] in *. exact IH.
Qed.

End MonitorFacts.

(** ** One turn of the loop, case by case *)

Lemma monitor_turn_cases (sys_platform : platform) (os : os_iface)
    (env : pass_env) (a : gui_app) :
  monitor_turn sys_platform os env a =
  match env_cpu_percent env, env_virtual_memory env, env_after_stats env with
  | Ok cpu, Ok vm, None =>
      let o := for_each_process sys_platform os (env_processes env) [] a in
      (Ok tt, state_of o,
       After_update_system_stats (stats_of cpu vm (env_disk_usage env))
       :: trace_of o
          ++ match env_process_iter env, env_after_list env with
             | None, None =>
                 [After_update_process_list (rows_of (env_processes env));
                  Call_sleep 1%float]
             | _, _ => [Call_sleep 1%float]
             end)
  | _, _, _ => (Ok tt, a, [Call_sleep 1%float])
  end.
Proof.
  unfold monitor_turn, monitor_pass, for_proc_in_process_iter, try_except.
  destruct (env_cpu_percent env) as [cpu | e1]; [| reflexivity].
  destruct (env_virtual_memory env) as [vm | e2]; [| reflexivity].
  destruct (env_after_stats env) as [e3 |]; [reflexivity |].
  unfold bind, lift_result, root_after, outcome, ret, emit, time_sleep, raise.
  pose proof (returns_for_each_process sys_platform os (env_processes env) [] a)
    as Hret.
  unfold value_of in Hret.
  destruct (for_each_process sys_platform os (env_processes env) [] a)
    as [[r a1] t1].
  cbn [fst snd app] in Hret. subst r.
  cbn [state_of trace_of fst snd].
  destruct (env_process_iter env) as [e5 |];
    destruct (env_after_list env) as [e4 |]; cbn [app];
    rewrite ?app_nil_r; cbn [app]; rewrite <- ?app_assoc; unfold stats_of;
    reflexivity.
Qed.

(** A turn never raises and sleeps exactly once, for one second, as the last
    thing it does. *)
Lemma monitor_turn_sleeps_once (sys_platform : platform) (os : os_iface)
    (env : pass_env) (a : gui_app) :
  value_of (monitor_turn sys_platform os env a) = Ok tt
  /\ exists t, trace_of (monitor_turn sys_platform os env a)
               = t ++ [Call_sleep 1%float]
               /\ sleeps t = [].
Proof.
  rewrite monitor_turn_cases.
  destruct (env_cpu_percent env) as [cpu | e1];
    [| split; [reflexivity | exists []; split; reflexivity]].
  destruct (env_virtual_memory env) as [vm | e2];
    [| split; [reflexivity | exists []; split; reflexivity]].
  destruct (env_after_stats env) as [e3 |];
    [split; [reflexivity | exists []; split; reflexivity] |].
  cbv zeta. split; [reflexivity |].
  pose proof (emits_inner_for_each_process sys_platform os (env_processes env) [] a)
    as Hin.
  apply inner_events_publish_nothing in Hin. destruct Hin as [_ Hs].
  unfold trace_of at 1. cbn [snd].
  assert (Hquiet : exists t,
             After_update_system_stats (stats_of cpu vm (env_disk_usage env))
             :: trace_of (for_each_process sys_platform os (env_processes env) [] a)
                ++ [Call_sleep 1%float]
             = t ++ [Call_sleep 1%float] /\ sleeps t = []).
  { eexists (_ :: _). split; [reflexivity |].
    change (sleeps (?x :: ?l)) with (sleeps ([x] ++ l)).
    rewrite sleeps_app, Hs. reflexivity. }
  destruct (env_process_iter env) as [e5 |]; [exact Hquiet |].
  destruct (env_after_list env) as [e4 |]; [exact Hquiet |].
  exists (After_update_system_stats (stats_of cpu vm (env_disk_usage env))
          :: trace_of (for_each_process sys_platform os (env_processes env) [] a)
             ++ [After_update_process_list (rows_of (env_processes env))]).
  split.
  - cbn [app]. rewrite <- app_assoc. reflexivity.
  - change (sleeps (?x :: ?l)) with (sleeps ([x] ++ l)).
    rewrite !sleeps_app, Hs. reflexivity.
Qed.

(** What a turn publishes: nothing, or the samples of the processes whose
    reading did not raise. *)
Lemma monitor_turn_published (sys_platform : platform) (os : os_iface)
    (env : pass_env) (a : gui_app) :
  published_lists (trace_of (monitor_turn sys_platform os env a))
  = match env_cpu_percent env, env_virtual_memory env, env_after_stats env,
          env_process_iter env, env_after_list env with
    | Ok _, Ok _, None, None, None => [rows_of (env_processes env)]
    | _, _, _, _, _ => []
    end.
Proof.
  rewrite monitor_turn_cases.
  destruct (env_cpu_percent env) as [cpu | e1]; [| reflexivity].
  destruct (env_virtual_memory env) as [vm | e2]; [| reflexivity].
  destruct (env_after_stats env) as [e3 |]; [reflexivity |].
  cbv zeta. unfold trace_of at 1. cbn [snd].
  pose proof (emits_inner_for_each_process sys_platform os (env_processes env) [] a)
    as Hin.
  apply inner_events_publish_nothing in Hin. destruct Hin as [Hp _].
  change (published_lists (?x :: ?l)) with (published_lists ([x] ++ l)).
  rewrite !published_lists_app, Hp.
  destruct (env_process_iter env); destruct (env_after_list env); reflexivity.
Qed.

Lemma published_lists_In (tr : list event) (data : list process_row) :
  In (After_update_process_list data) tr <-> In data (published_lists tr).
Proof.
  unfold published_lists. rewrite in_flat_map. split.
  - intros H. exists (After_update_process_list data). simpl. auto.
  - intros [ev [Hev Hin]]. destruct ev; simpl in Hin; try contradiction.
    destruct Hin as [-> | []]. exact Hev.
Qed.

Lemma rows_of_In (procs : list (interference * proc_item)) (r : process_row) :
  In r (rows_of procs) <->
  exists w now i, In (w, mk_item (Ok i) now) procs /\ r = row_of i.
Proof.
  unfold rows_of. rewrite in_flat_map. split.
  - intros [[w [info now]] [Hin Hr]]. unfold rows_of_item in Hr. simpl in Hr.
    destruct info as [i | e]; simpl in Hr; [| contradiction].
    destruct Hr as [<- | []]. exists w, now, i. auto.
  - intros (w & now & i & Hin & ->). exists (w, mk_item (Ok i) now).
    split; [exact Hin | simpl; auto].
Qed.

Lemma rows_of_survivors (procs : list (interference * proc_item)) :
  rows_of procs = map row_of (survivors procs).
Proof.
  unfold rows_of, survivors, rows_of_item.
  induction procs as [| [w p] rest IH]; [reflexivity |].
  cbn [flat_map snd]. rewrite map_app, IH.
  destruct (item_info p); reflexivity.
Qed.

(** ** The bounded deque *)

(** Appending to a bounded deque that respects its bound keeps the last
    [n] items of the extended sequence. *)
Lemma deque_append_items {A : Type} (d : deque A) (x : A) (n : nat) :
  dq_maxlen d = Some n ->
  (List.length (dq_items d) <= n)%nat ->
  dq_items (deque_append d x)
  = skipn (List.length (dq_items d ++ [x]) - n) (dq_items d ++ [x])
  /\ (List.length (dq_items (deque_append d x)) <= n)%nat.
Proof.
  intros Hmax Hlen. unfold deque_append. rewrite Hmax. cbn [dq_items].
  rewrite length_app. cbn [List.length].
  destruct (Nat.ltb_spec n (List.length (dq_items d) + 1)) as [Hfull | Hroom].
  - assert (Hn : List.length (dq_items d) = n) by lia.
    replace (List.length (dq_items d) + 1 - n)%nat with 1%nat by lia.
    destruct (dq_items d) as [| y ys]; cbn [app tl skipn List.length] in *.
    + split; [reflexivity | lia].
    + split; [reflexivity |]. rewrite length_app. cbn [List.length]. lia.
  - replace (List.length (dq_items d) + 1 - n)%nat with 0%nat by lia.
    cbn [skipn]. split; [reflexivity |].
    rewrite length_app. cbn [List.length]. lia.
Qed.

Lemma skipn_skipn_add {A : Type} (i j : nat) (l : list A) :
  skipn i (skipn j l) = skipn (j + i) l.
Proof.
  revert l. induction j as [| j IH]; intros l; [reflexivity |].
  destruct l as [| x l]; cbn [skipn Nat.add]; [apply skipn_nil | apply IH].
Qed.

Lemma deque_fold_items {A : Type} (xs : list A) (d : deque A) (n : nat) :
  dq_maxlen d = Some n ->
  (List.length (dq_items d) <= n)%nat ->
  dq_items (fold_left deque_append xs d)
  = skipn (List.length (dq_items d ++ xs) - n) (dq_items d ++ xs).
Proof.
  revert d. induction xs as [| x xs IH]; intros d Hmax Hlen.
  - cbn [fold_left]. rewrite app_nil_r.
    replace (List.length (dq_items d) - n)%nat with 0%nat by lia. reflexivity.
  - cbn [fold_left].
    destruct (deque_append_items d x n Hmax Hlen) as [Hitems Hlen'].
    rewrite (IH (deque_append d x) Hmax Hlen'), Hitems.
    set (L := dq_items d ++ [x]) in *.
    replace (dq_items d ++ x :: xs) with (L ++ xs)
      by (subst L; rewrite <- app_assoc; reflexivity).
    set (m := (List.length L - n)%nat).
    assert (Hm : (m <= List.length L)%nat) by lia.
    rewrite !length_app, length_skipn.
    replace (skipn m L ++ xs) with (skipn m (L ++ xs))
      by (rewrite skipn_app;
          replace (m - List.length L)%nat with 0%nat by lia; reflexivity).
    rewrite skipn_skipn_add. f_equal. lia.
Qed.

Lemma log_all_history (entries : list (string * string)) (a : gui_app) :
  action_history (state_of (log_all entries a))
  = fold_left deque_append
      (map (fun e => log_entry (fst e) (snd e)) entries) (action_history a).
Proof.
  revert a. induction entries as [| [now message] rest IH]; intros a.
  - reflexivity.
  - cbn [log_all map fold_left fst snd]. unfold bind.
    change (log_action now message a)
      with (Ok tt,
            set_log (deque_append (action_history a) (log_entry now message))
              (match history_text a with
               | Some t => Some (t ++ [log_entry now message])
               | None => None
               end) a,
            @nil event).
    cbv iota beta.
    specialize (IH (set_log (deque_append (action_history a) (log_entry now message))
                      (match history_text a with
                       | Some t => Some (t ++ [log_entry now message])
                       | None => None
                       end) a)).
    destruct (log_all rest _) as [[r a2] t2].
    cbn [state_of fst snd] in *. exact IH.
Qed.

(** ** Unmapped priority levels *)

Lemma nice_for_unmapped (sys_platform : platform) (level : string) :
  dict_mem level (platform_priority_map sys_platform) = false ->
  nice_for sys_platform level = nice_for sys_platform "High".
Proof.
  unfold dict_mem, platform_priority_map, nice_for.
  destruct sys_platform.
  - destruct (dict_get level PRIORITY_LEVELS_Windows); [discriminate | reflexivity].
  - destruct (dict_get level PRIORITY_LEVELS_Linux); [discriminate | reflexivity].
Qed.

(** ** The configuration during a pass *)

Lemma policy_on_snapshot_config_of (a : gui_app) (rows : list process_row) :
  policy_on_snapshot (config_of a) rows
  = map (fun r => (row_pid r, auto_boost_level a)) (filter (auto_boosts a) rows).
Proof.
  unfold policy_on_snapshot, config_of, auto_boosts.
  cbn [autoBoostEnabled threshold boostLevel].
  destruct (auto_boost_enabled a); cbn [andb].
  - reflexivity.
  - induction rows as [| r rows IH]; [reflexivity | exact IH].
Qed.

(** ** Invariants of the application object *)

Section Invariants.

Variable I : gui_app -> Prop.
Hypothesis I_set_log : forall h t a, I a -> I (set_log h t a).

Lemma invariant_bind {A B : Type} (m : M A) (k : A -> M B) :
  invariant I m -> (forall x, invariant I (k x)) -> invariant I (bind m k).
Proof.
  intros Hm Hk a Ha. specialize (Hm a Ha). unfold bind, state_of in *.
  destruct (m a) as [[[x | e] a1] t1]; cbn [fst snd] in *; [| exact Hm].
  specialize (Hk x a1 Hm). unfold state_of in Hk.
  destruct (k x a1) as [[r a2] t2]. exact Hk.
Qed.

Lemma invariant_try_except {A : Type} (m : M A) (h : exn -> M A) :
  invariant I m -> (forall e, invariant I (h e)) -> invariant I (try_except m h).
Proof.
  intros Hm Hh a Ha. specialize (Hm a Ha). unfold try_except, state_of in *.
  destruct (m a) as [[[x | e] a1] t1]; cbn [fst snd] in *; [exact Hm |].
  specialize (Hh e a1 Hm). unfold state_of in Hh.
  destruct (h e a1) as [[r a2] t2]. exact Hh.
Qed.

Lemma invariant_ret {A : Type} (x : A) : invariant I (ret x).
Proof. intros a Ha. exact Ha. Qed.

Lemma invariant_gets {A : Type} (f : gui_app -> A) : invariant I (gets f).
Proof. intros a Ha. exact Ha. Qed.

Lemma invariant_lift_result {A : Type} (r : result A) :
  invariant I (lift_result r).
Proof. destruct r; intros st Hst; exact Hst. Qed.

Lemma invariant_log_action (now message : string) :
  invariant I (log_action now message).
Proof. intros a Ha. apply I_set_log. exact Ha. Qed.

Lemma invariant_gui_thread (steps : list gui_step) :
  Forall (fun s => invariant I (run_gui_step s)) steps ->
  invariant I (gui_thread steps).
Proof.
  induction 1 as [| s rest Hs _ IH]; cbn [gui_thread].
  - apply invariant_ret.
  - apply invariant_bind; [exact Hs | intros _; exact IH].
Qed.

Variable sys_platform : platform.
Variable os : os_iface.

Lemma invariant_sample_process (w : interference) (proc : proc_item)
    (acc : list process_row) :
  Forall (fun s => invariant I (run_gui_step s)) (interference_steps w) ->
  invariant I (sample_process sys_platform os w proc acc).
Proof.
  unfold interference_steps. intros H.
  apply Forall_app in H. destruct H as [H1 H].
  apply Forall_app in H. destruct H as [H2 H3].
  unfold sample_process.
  apply invariant_try_except; [| intros; apply invariant_ret].
  apply invariant_bind; [apply invariant_lift_result |]. intros i.
  apply invariant_bind; [apply invariant_gui_thread, H1 |]. intros _.
  apply invariant_bind; [apply invariant_gets |]. intros enabled.
  apply invariant_bind; [| intros; apply invariant_ret].
  destruct enabled; [| apply invariant_ret].
  apply invariant_bind; [apply invariant_gui_thread, H2 |]. intros _.
  apply invariant_bind; [apply invariant_gets |]. intros thr.
  destruct (PrimFloat.ltb thr _); [| apply invariant_ret].
  apply invariant_try_except; [| intros; apply invariant_ret].
  apply invariant_bind; [apply invariant_gui_thread, H3 |]. intros _.
  apply invariant_bind; [apply invariant_gets |]. intros level.
  apply invariant_bind; [| intros; apply invariant_log_action].
  intros a Ha. rewrite boost_process_priority_run. exact Ha.
Qed.

Lemma invariant_for_each_process (procs : list (interference * proc_item))
    (acc : list process_row) :
  Forall (fun s => invariant I (run_gui_step s))
    (flat_map (fun wp => interference_steps (fst wp)) procs) ->
  invariant I (for_each_process sys_platform os procs acc).
Proof.
  revert acc. induction procs as [| [w proc] rest IH]; intros acc;
    cbn [flat_map for_each_process fst].
  - intros _. apply invariant_ret.
  - intros H. apply Forall_app in H. destruct H as [Hw Hrest].
    apply invariant_bind; [apply invariant_sample_process, Hw |].
    intros acc'. apply IH, Hrest.
Qed.

Lemma invariant_monitor_turn (env : pass_env) :
  Forall (fun s => invariant I (run_gui_step s))
    (flat_map (fun wp => interference_steps (fst wp)) (env_processes env)) ->
  invariant I (monitor_turn sys_platform os env).
Proof.
  intros H a Ha. rewrite monitor_turn_cases.
  destruct (env_cpu_percent env); [| exact Ha].
  destruct (env_virtual_memory env); [| exact Ha].
  destruct (env_after_stats env); [exact Ha |].
  exact (invariant_for_each_process _ [] H a Ha).
Qed.

End Invariants.

(** ** The stop flag *)

Lemma flag_up_set_log (h : deque string) (t : option (list string)) (a : gui_app) :
  flag_up a -> flag_up (set_log h t a).
Proof. intros Ha. exact Ha. Qed.

Lemma keeps_flag_steps (steps : list gui_step) :
  keeps_flag steps = true ->
  Forall (fun s => invariant flag_up (run_gui_step s)) steps.
Proof.
  unfold keeps_flag. intros H. apply Forall_forall. intros s Hs.
  rewrite forallb_forall in H. specialize (H s Hs).
  destruct s as [b | b | t | l | now message | title msg | title msg |];
    try (intros a Ha; exact Ha).
  destruct b; [| discriminate]. intros a _. reflexivity.
Qed.

(** ** The configuration *)

Lemma config_set_log (c : PolicyConfig) (h : deque string)
    (t : option (list string)) (a : gui_app) :
  config_of a = c -> config_of (set_log h t a) = c.
Proof. intros Ha. exact Ha. Qed.

Lemma keeps_config_steps (c : PolicyConfig) (steps : list gui_step) :
  keeps_config steps = true ->
  Forall (fun s => invariant (fun a => config_of a = c) (run_gui_step s)) steps.
Proof.
  unfold keeps_config. intros H. apply Forall_forall. intros s Hs.
  rewrite forallb_forall in H. specialize (H s Hs).
  destruct s; try discriminate; intros a Ha; exact Ha.
Qed.

Lemma gui_thread_keeps_config (steps : list gui_step) (a : gui_app) :
  keeps_config steps = true ->
  exists a' t,
    gui_thread steps a = (Ok tt, a', t)
    /\ config_of a' = config_of a
    /\ boost_calls t = [].
Proof.
  intros H.
  pose proof (never_raises_unit _ (never_raises_gui_thread steps) a) as Hv.
  pose proof (invariant_gui_thread (fun s => config_of s = config_of a) steps
                (keeps_config_steps (config_of a) steps H) a eq_refl) as Hc.
  pose proof (emits_inner_gui_thread not_boost steps
                (fun _ _ => eq_refl) (fun _ _ => eq_refl) eq_refl a) as Hb.
  apply no_boost_events_no_calls in Hb.
  destruct (gui_thread steps a) as [[r a'] t].
  cbn [value_of state_of trace_of fst snd] in *. subst r.
  exists a', t. auto.
Qed.

Lemma config_fields (a b : gui_app) :
  config_of a = config_of b ->
  auto_boost_enabled a = auto_boost_enabled b
  /\ auto_boost_threshold a = auto_boost_threshold b
  /\ auto_boost_level a = auto_boost_level b.
Proof. unfold config_of. intros H. injection H as H1 H2 H3. auto. Qed.

(** The loop body while the main thread writes no configuration field:
    the decision is the one the configuration held at the start makes. *)
Lemma sample_process_keeps_config (sys_platform : platform) (os : os_iface)
    (w : interference) (i : proc_info) (now : string)
    (acc : list process_row) (a : gui_app) :
  keeps_config (interference_steps w) = true ->
  boost_calls
    (trace_of (sample_process sys_platform os w (mk_item (Ok i) now) acc a))
  = if auto_boosts a (row_of i) then [(info_pid i, auto_boost_level a)] else [].
Proof.
  unfold interference_steps, keeps_config. rewrite !forallb_app.
  intros H. apply andb_true_iff in H. destruct H as [H1 H].
  apply andb_true_iff in H. destruct H as [H2 H3].
  destruct (gui_thread_keeps_config _ a H1) as (a1 & t1 & E1 & C1 & B1).
  destruct (gui_thread_keeps_config _ a1 H2) as (a2 & t2 & E2 & C2 & B2).
  destruct (gui_thread_keeps_config _ a2 H3) as (a3 & t3 & E3 & C3 & B3).
  apply config_fields in C1, C2, C3.
  destruct C1 as (Ce1 & Ct1 & Cl1). destruct C2 as (Ce2 & Ct2 & Cl2).
  destruct C3 as (Ce3 & Ct3 & Cl3).
  unfold sample_process, try_except, bind, lift_result, ret, gets, auto_boosts.
  cbn [item_info]. cbv beta iota. rewrite E1. cbv beta iota.
  rewrite Ce1.
  destruct (auto_boost_enabled a); cbn [andb];
    [| cbn [trace_of snd]; rewrite !app_nil_r; exact B1].
  rewrite E2. cbv beta iota. rewrite Ct2, Ct1.
  change (calculate_score (float_or (info_cpu_percent i) 0)
            (float_or (info_memory_percent i) 0))
    with (row_score (row_of i)).
  destruct (PrimFloat.ltb (auto_boost_threshold a) (row_score (row_of i)));
    [| cbn [trace_of snd]; rewrite !app_nil_r, !boost_calls_app, B1, B2;
       reflexivity].
  rewrite E3. cbv beta iota. rewrite boost_process_priority_run. cbv beta iota.
  unfold log_action, modify. cbv beta iota. cbn [trace_of snd].
  rewrite !app_nil_r, !boost_calls_app, B1, B2, B3, boost_calls_boost_trace.
  rewrite Cl3, Cl2, Cl1. reflexivity.
Qed.

Lemma for_each_process_keeps_config (sys_platform : platform) (os : os_iface)
    (procs : list (interference * proc_item)) (acc : list process_row)
    (a : gui_app) :
  keeps_config (flat_map (fun wp => interference_steps (fst wp)) procs) = true ->
  boost_calls (trace_of (for_each_process sys_platform os procs acc a))
  = map (fun r => (row_pid r, auto_boost_level a))
      (filter (auto_boosts a) (rows_of procs))
  /\ config_of (state_of (for_each_process sys_platform os procs acc a))
     = config_of a.
Proof.
  revert acc a. induction procs as [| [w [info now]] rest IH]; intros acc a H.
  - split; reflexivity.
  - cbn [flat_map fst] in H. unfold keeps_config in H. rewrite forallb_app in H.
    apply andb_true_iff in H. destruct H as [Hw Hrest].
    cbn [for_each_process]. unfold bind.
    destruct info as [i | e].
    + pose proof (sample_process_keeps_config sys_platform os w i now acc a Hw)
        as Hcalls.
      pose proof (invariant_sample_process (fun s => config_of s = config_of a)
                    (config_set_log (config_of a)) sys_platform os w
                    (mk_item (Ok i) now) acc
                    (keeps_config_steps (config_of a) _ Hw) a eq_refl) as Hcfg.
      pose proof (returns_sample_process sys_platform os w (mk_item (Ok i) now)
                    acc a) as Hval.
      destruct (sample_process sys_platform os w (mk_item (Ok i) now) acc a)
        as [[r a1] t1].
      cbn [value_of state_of trace_of fst snd] in *. subst r.
      destruct (IH (acc ++ rows_of_item (mk_item (Ok i) now)) a1 Hrest)
        as [IHcalls IHcfg].
      destruct (for_each_process sys_platform os rest
                  (acc ++ rows_of_item (mk_item (Ok i) now)) a1) as [[r a2] t2].
      cbn [state_of trace_of fst snd] in *.
      destruct (config_fields a1 a Hcfg) as (He & Ht & Hl).
      assert (Hsame : forall r0, auto_boosts a1 r0 = auto_boosts a r0)
        by (intros r0; unfold auto_boosts; rewrite He, Ht; reflexivity).
      split; [| congruence].
      rewrite boost_calls_app, Hcalls, IHcalls, Hl, (filter_ext _ _ Hsame).
      unfold rows_of. cbn [flat_map snd rows_of_item item_info app filter].
      destruct (auto_boosts a (row_of i)); reflexivity.
    + rewrite (sample_process_raise sys_platform os w (mk_item (Raise e) now) e
                 acc a eq_refl).
      specialize (IH acc a Hrest).
      destruct (for_each_process sys_platform os rest acc a) as [[r a2] t2].
      cbn [state_of trace_of fst snd app] in *. exact IH.
Qed.

(** ** The loop, turn by turn *)

Lemma sleeps_gui_thread (steps : list gui_step) (a : gui_app) :
  sleeps (trace_of (gui_thread steps a)) = [].
Proof.
  apply inner_events_publish_nothing.
  apply emits_inner_gui_thread; reflexivity.
Qed.

Lemma monitor_processes_cons (sys_platform : platform) (os : os_iface)
    (turn : loop_env) (rest : list loop_env) (a : gui_app) :
  monitor_processes sys_platform os (turn :: rest) a =
  let o1 := gui_thread (gui_before_check turn) a in
  if monitoring_active (state_of o1) then
    let o2 := monitor_turn sys_platform os (turn_pass turn) (state_of o1) in
    let o3 := monitor_processes sys_platform os rest (state_of o2) in
    (value_of o3, state_of o3, trace_of o1 ++ trace_of o2 ++ trace_of o3)
  else (Ok Stopped, state_of o1, trace_of o1).
Proof.
  cbn [monitor_processes]. unfold bind, gets. cbv zeta.
  pose proof (never_raises_unit _ (never_raises_gui_thread (gui_before_check turn)) a)
    as H1.
  unfold value_of in H1.
  destruct (gui_thread (gui_before_check turn) a) as [[r1 a1] t1].
  cbn [fst snd state_of trace_of value_of] in *. subst r1.
  destruct (monitoring_active a1).
  - destruct (monitor_turn_sleeps_once sys_platform os (turn_pass turn) a1) as [H2 _].
    unfold value_of in H2.
    destruct (monitor_turn sys_platform os (turn_pass turn) a1) as [[r2 a2] t2].
    cbn [fst snd] in *. subst r2. cbn [state_of trace_of fst snd].
    destruct (monitor_processes sys_platform os rest a2) as [[r3 a3] t3].
    reflexivity.
  - unfold ret. cbv beta iota. cbn [app]. rewrite app_nil_r. reflexivity.
Qed.

Lemma sleeps_monitor_turn (sys_platform : platform) (os : os_iface)
    (env : pass_env) (a : gui_app) :
  sleeps (trace_of (monitor_turn sys_platform os env a)) = [1%float].
Proof.
  destruct (monitor_turn_sleeps_once sys_platform os env a) as [_ [t [-> Ht]]].
  rewrite sleeps_app, Ht. reflexivity.
Qed.

(** The loop never raises; it sleeps one second once per turn it runs; and
    when it is left, the flag is down. *)
Lemma monitor_processes_runs (sys_platform : platform) (os : os_iface)
    (schedule : list loop_env) (a : gui_app) :
  exists st n,
    value_of (monitor_processes sys_platform os schedule a) = Ok st
    /\ sleeps (trace_of (monitor_processes sys_platform os schedule a))
       = repeat 1%float n
    /\ (st = Still_running -> n = List.length schedule)
    /\ (st = Stopped ->
        (n < List.length schedule)%nat
        /\ monitoring_active
             (state_of (monitor_processes sys_platform os schedule a)) = false).
Proof.
  revert a. induction schedule as [| turn rest IH]; intros a.
  - exists Still_running, 0%nat. repeat split; try reflexivity; discriminate.
  - rewrite monitor_processes_cons. cbv zeta.
    destruct (monitoring_active (state_of (gui_thread (gui_before_check turn) a)))
      eqn:Hflag.
    + destruct (IH (state_of (monitor_turn sys_platform os (turn_pass turn)
                                (state_of (gui_thread (gui_before_check turn) a)))))
        as (st & n & Hv & Hs & Hrun & Hstop).
      exists st, (S n). cbn [value_of state_of trace_of fst snd].
      split; [exact Hv |]. split.
      * rewrite !sleeps_app, sleeps_gui_thread, sleeps_monitor_turn, Hs.
        reflexivity.
      * split.
        -- intros Hst. cbn [List.length]. f_equal. exact (Hrun Hst).
        -- intros Hst. destruct (Hstop Hst) as [Hn Hoff].
           split; [cbn [List.length]; lia | exact Hoff].
    + exists Stopped, 0%nat. cbn [value_of state_of trace_of fst snd].
      split; [reflexivity |]. split; [apply sleeps_gui_thread |].
      split; [discriminate |]. intros _.
      split; [cbn [List.length]; lia | exact Hflag].
Qed.

(** Without a stop request the loop is never left. *)
Lemma monitor_processes_keeps_running (sys_platform : platform) (os : os_iface)
    (schedule : list loop_env) (a : gui_app) :
  monitoring_active a = true ->
  no_stop_request schedule ->
  value_of (monitor_processes sys_platform os schedule a) = Ok Still_running.
Proof.
  unfold no_stop_request. revert a.
  induction schedule as [| turn rest IH]; intros a Ha Hno.
  - reflexivity.
  - cbn [flat_map] in Hno. unfold turn_steps in Hno.
    unfold keeps_flag in *. rewrite !forallb_app in Hno.
    apply andb_true_iff in Hno. destruct Hno as [Hturn Hrest].
    apply andb_true_iff in Hturn. destruct Hturn as [Hcheck Hprocs].
    rewrite monitor_processes_cons. cbv zeta.
    pose proof (invariant_gui_thread flag_up _ (keeps_flag_steps _ Hcheck) a Ha)
      as Ha1.
    unfold flag_up in Ha1. rewrite Ha1. cbn [value_of fst].
    apply IH; [| exact Hrest].
    apply (invariant_monitor_turn flag_up flag_up_set_log);
      [apply keeps_flag_steps, Hprocs | exact Ha1].
Qed.

(** ** The boost command, outcome by outcome *)

Lemma nice_for_High (sys_platform : platform) :
  nice_for sys_platform "High"
  = match sys_platform with
    | win32 => HIGH_PRIORITY_CLASS
    | posix => Nice (-5)
    end.
Proof. destruct sys_platform; reflexivity. Qed.

Lemma dict_mem_High (sys_platform : platform) :
  dict_mem "High" (platform_priority_map sys_platform) = true.
Proof. destruct sys_platform; reflexivity. Qed.

(** The command, outcome by outcome. *)
Lemma boost_selected_process_run (sys_platform : platform) (os : os_iface)
    (priority now : string) (pid : Z) (a : gui_app) :
  selected_pid a = Some pid ->
  let level :=
    if dict_mem priority (platform_priority_map sys_platform)
    then priority else "High"%string in
  boost_selected_process sys_platform os (Some priority) now a
  = (Ok tt,
     state_of
       (log_action now
          (if boost_succeeds sys_platform os pid level
           then "Boosted PID " +++ str_int pid +++ " to " +++ level +++ " priority"
           else "Failed to boost PID " +++ str_int pid)%string a),
     Ask_string "Priority Level"
       ("Select priority level:" +++ newline
          +++ join ", " (dict_keys (platform_priority_map sys_platform))
          +++ newline +++ newline +++ "Enter priority (default: High):")
     :: boost_trace sys_platform os pid level
     ++ (if boost_succeeds sys_platform os pid level
         then [Show_info "Success"
                 ("Process " +++ str_int pid +++ " priority set to " +++ level
                    +++ "!");
               Status_label
                 ("Status: Process " +++ str_int pid +++ " boosted to " +++ level)]
         else [Show_error "Error"
                 ("Failed to boost process " +++ str_int pid +++ ".")])).
Proof.
  intros Hsel. cbv zeta.
  unfold boost_selected_process, try_except, bind, gets.
  rewrite Hsel. cbv beta iota.
  unfold emit at 1. cbv beta iota.
  rewrite boost_process_priority_run. cbv beta iota.
  destruct (boost_succeeds sys_platform os pid _);
    unfold emit, log_action, modify, state_of; cbv beta iota; cbn [fst snd app];
    rewrite ?app_nil_r; reflexivity.
Qed.

(** ** What the loop runs and when it is left *)

Lemma gui_thread_app (l1 l2 : list gui_step) (a : gui_app) :
  gui_thread (l1 ++ l2) a
  = (value_of (gui_thread l2 (state_of (gui_thread l1 a))),
     state_of (gui_thread l2 (state_of (gui_thread l1 a))),
     trace_of (gui_thread l1 a)
     ++ trace_of (gui_thread l2 (state_of (gui_thread l1 a)))).
Proof.
  revert a. induction l1 as [| s rest IH]; intros a.
  - cbn [app gui_thread]. unfold ret. cbn [state_of trace_of fst snd app].
    destruct (gui_thread l2 a) as [[r a2] t2]. reflexivity.
  - cbn [app gui_thread]. unfold bind.
    pose proof (never_raises_unit _ (never_raises_run_gui_step s) a) as Hs.
    unfold value_of in Hs.
    destruct (run_gui_step s a) as [[r1 a1] t1]. cbn [fst snd] in Hs. subst r1.
    rewrite IH.
    destruct (gui_thread rest a1) as [[r2 a2] t2].
    cbn [value_of state_of trace_of fst snd].
    destruct (gui_thread l2 a2) as [[r3 a3] t3].
    cbn [fst snd]. rewrite app_assoc. reflexivity.
Qed.

Lemma on_closing_clears_the_flag (now : string) (a : gui_app) :
  monitoring_active (state_of (gui_thread (on_closing now) a)) = false
  /\ trace_of (gui_thread (on_closing now) a) = [Root_destroy].
Proof. split; reflexivity. Qed.

Lemma published_gui_thread (steps : list gui_step) (a : gui_app) :
  published_lists (trace_of (gui_thread steps a)) = [].
Proof.
  apply inner_events_publish_nothing.
  apply emits_inner_gui_thread; reflexivity.
Qed.

Lemma monitor_turn_published_any_state (sys_platform : platform) (os : os_iface)
    (env : pass_env) (a a' : gui_app) :
  published_lists (trace_of (monitor_turn sys_platform os env a))
  = published_lists (trace_of (monitor_turn sys_platform os env a')).
Proof. rewrite !monitor_turn_published. reflexivity. Qed.

Lemma monitor_processes_publishes_every_turn (sys_platform : platform)
    (os : os_iface) (schedule : list loop_env) (a a0 : gui_app) :
  monitoring_active a = true ->
  no_stop_request schedule ->
  published_lists (trace_of (monitor_processes sys_platform os schedule a))
  = flat_map (fun turn =>
                published_lists
                  (trace_of (monitor_turn sys_platform os (turn_pass turn) a0)))
      schedule.
Proof.
  unfold no_stop_request. revert a.
  induction schedule as [| turn rest IH]; intros a Ha Hno.
  - reflexivity.
  - cbn [flat_map] in Hno. unfold turn_steps in Hno.
    unfold keeps_flag in *. rewrite !forallb_app in Hno.
    apply andb_true_iff in Hno. destruct Hno as [Hturn Hrest].
    apply andb_true_iff in Hturn. destruct Hturn as [Hcheck Hprocs].
    rewrite monitor_processes_cons. cbv zeta.
    pose proof (invariant_gui_thread flag_up _ (keeps_flag_steps _ Hcheck) a Ha)
      as Ha1.
    unfold flag_up in Ha1. rewrite Ha1. cbn [trace_of snd flat_map].
    rewrite !published_lists_app, published_gui_thread. cbn [app].
    f_equal.
    + apply monitor_turn_published_any_state.
    + apply IH; [| exact Hrest].
      apply (invariant_monitor_turn flag_up flag_up_set_log);
        [apply keeps_flag_steps, Hprocs | exact Ha1].
Qed.

(** ** The kill accessor, outcome by outcome *)

Lemma kill_process_run (os : os_iface) (pid : Z) (a : gui_app) :
  kill_process os pid a = (Ok (kill_succeeds os pid), a, kill_trace os pid).
Proof.
  unfold kill_process, kill_succeeds, kill_trace, new_Process, try_except, bind,
    emit, outcome, time_sleep, ret, raise.
  destruct (os_Process os pid); [reflexivity |].
  destruct (os_terminate os pid); [reflexivity |].
  destruct (os_is_running os pid); [| reflexivity].
  destruct (os_kill os pid); reflexivity.
Qed.

(** ** The priority tables *)

Lemma linux_levels_are_bounded (level : string) (v : nice_value) :
  dict_get level PRIORITY_LEVELS_Linux = Some v ->
  exists n, v = Nice n /\ (-10 <= n <= 10)%Z.
Proof.
  unfold PRIORITY_LEVELS_Linux. cbn [dict_get].
  repeat match goal with
         | |- context [String.eqb level ?k] => destruct (String.eqb level k)
         end;
    intros H; try discriminate H; injection H as <-; eexists; split;
    try reflexivity; lia.
Qed.

Lemma windows_levels_are_classes (level : string) (v : nice_value) :
  dict_get level PRIORITY_LEVELS_Windows = Some v ->
  (forall n, v <> Nice n)
  /\ (v = REALTIME_PRIORITY_CLASS -> level = "Realtime"%string).
Proof.
  unfold PRIORITY_LEVELS_Windows. cbn [dict_get].
  destruct (String.eqb level "Realtime") eqn:E.
  - intros H. injection H as <-. split; [discriminate |].
    intros _. apply String.eqb_eq. exact E.
  - repeat match goal with
           | |- context [String.eqb level ?k] => destruct (String.eqb level k)
           end;
      intros H; try discriminate H; injection H as <-;
      split; discriminate.
Qed.

(** ** The history tab and the bounded log *)

Lemma log_action_run (now message : string) (a : gui_app) :
  log_action now message a
  = (Ok tt,
     set_log (deque_append (action_history a) (log_entry now message))
       (match history_text a with
        | Some t => Some (t ++ [log_entry now message])
        | None => None
        end) a,
     []).
Proof. reflexivity. Qed.

Lemma auto_boost_entries_config (a a' : gui_app) (procs : list proc_item) :
  config_of a' = config_of a ->
  auto_boost_entries a' procs = auto_boost_entries a procs.
Proof.
  intros H. unfold auto_boost_entries, auto_boosts.
  injection H as -> -> _. reflexivity.
Qed.

Lemma log_all_widget (entries : list (string * string)) (a : gui_app) :
  history_text (state_of (log_all entries a))
  = match history_text a with
    | Some t => Some (t ++ entries_of entries)
    | None => None
    end.
Proof.
  revert a. induction entries as [| [now message] rest IH]; intros a.
  - cbn. destruct (history_text a); [rewrite app_nil_r |]; reflexivity.
  - cbn [log_all entries_of map fst snd]. unfold bind.
    rewrite log_action_run. cbv iota beta.
    specialize (IH (set_log (deque_append (action_history a) (log_entry now message))
                      (match history_text a with
                       | Some t => Some (t ++ [log_entry now message])
                       | None => None
                       end) a)).
    destruct (log_all rest _) as [[r a2] t2].
    cbn [state_of fst snd] in *. rewrite IH. cbn [history_text set_log].
    destruct (history_text a); [rewrite <- app_assoc |]; reflexivity.
Qed.

Lemma log_all_keeps_the_rest (entries : list (string * string)) (a : gui_app) :
  let st := state_of (log_all entries a) in
  config_of st = config_of a
  /\ monitoring_active st = monitoring_active a
  /\ selected_pid st = selected_pid a
  /\ dq_maxlen (action_history st) = dq_maxlen (action_history a)
  /\ log_all entries a = (Ok tt, st, []).
Proof.
  revert a. induction entries as [| [now message] rest IH]; intros a.
  - cbn. auto.
  - cbn [log_all]. unfold bind. rewrite log_action_run. cbv iota beta zeta.
    specialize (IH (set_log (deque_append (action_history a) (log_entry now message))
                      (match history_text a with
                       | Some t => Some (t ++ [log_entry now message])
                       | None => None
                       end) a)).
    cbv zeta in IH.
    destruct (log_all rest _) as [[r a2] t2].
    cbn [state_of fst snd app] in *.
    destruct IH as (H1 & H2 & H3 & H4 & H5).
    injection H5 as -> ->.
    repeat split; assumption.
Qed.

Lemma skipn_suffix_app {A : Type} (n : nat) (t xs : list A) :
  let d := skipn (List.length t - n) t in
  skipn (List.length (d ++ xs) - n) (d ++ xs)
  = skipn (List.length (t ++ xs) - n) (t ++ xs).
Proof.
  cbv zeta. destruct (Nat.le_gt_cases (List.length t) n) as [Hle | Hgt].
  - replace (List.length t - n)%nat with 0%nat by lia. reflexivity.
  - set (k := (List.length t - n)%nat).
    replace (skipn k t ++ xs) with (skipn k (t ++ xs))
      by (rewrite skipn_app; replace (k - List.length t)%nat with 0%nat by lia;
          reflexivity).
    rewrite skipn_skipn_add, length_skipn, !length_app. f_equal. lia.
Qed.

(** * The claims *)

(** C1.  The scoring function returns exactly [0.6 * cpu + 0.4 * ram] for all
    inputs (so for all non-negative ones, values above 100 included: 150 and
    200 score 170), and in every process list a pass hands over, the score of
    every sample is that formula applied to the same sample's cpu and ram. *)
Theorem score_is_weighted_sum_of_own_cpu_and_ram :
  (forall cpu ram : float,
      calculate_score cpu ram = (0.6 * cpu + 0.4 * ram)%float)
  /\ calculate_score 150 200 = 170%float
  /\ (forall sys_platform os env a data r,
         In (After_update_process_list data)
           (trace_of (monitor_turn sys_platform os env a)) ->
         In r data ->
         row_score r = (0.6 * row_cpu r + 0.4 * row_ram r)%float).
Proof.
  split; [reflexivity |]. split; [vm_compute; reflexivity |].
  intros sys_platform os env a data r Hpub Hr.
  apply published_lists_In in Hpub. rewrite monitor_turn_published in Hpub.
  assert (Hdata : data = rows_of (env_processes env)).
  { destruct (env_cpu_percent env); [| contradiction].
    destruct (env_virtual_memory env); [| contradiction].
    destruct (env_after_stats env); [contradiction |].
    destruct (env_process_iter env); [contradiction |].
    destruct (env_after_list env); [contradiction |].
    destruct Hpub as [<- | []]. reflexivity. }
  subst data. apply rows_of_In in Hr. destruct Hr as (w & now & i & _ & ->).
  reflexivity.
Qed.

Lemma score_is_weighted_sum_witness :
  row_score (row_of (mk_info 3 (Some "worker"%string) (Some 0%float)
                       (Some 200%float) (Some "running"%string)))
  = (0.6 * 0 + 0.4 * 200)%float.
Proof.
  apply (proj2 (proj2 score_is_weighted_sum_of_own_cpu_and_ram)
           posix os_granting (env_healthy (undisturbed procs_10_51_80_50))
           app_auto_boost
           (rows_of (undisturbed procs_10_51_80_50))).
  - apply published_lists_In. rewrite monitor_turn_published. simpl. auto.
  - apply rows_of_In. exists quiet, "2024-01-01 12:00:00"%string.
    eexists. split; [| reflexivity]. simpl. auto.
Defined.

(** C2.  In a pass the main thread does not disturb, the calls of
    [boost_process_priority] are, in enumeration order, one per sampled
    process whose score is strictly above the threshold when auto-boost is
    enabled, each with that process's pid and the configured level, and no
    other: a sampled process is boosted if and only if auto-boost is enabled
    and its score exceeds the threshold, and at most once.  With threshold 50
    and auto-boost enabled, of processes scoring 10, 51, 80 and 50 exactly
    those scoring 51 and 80 are boosted. *)
Theorem auto_boost_iff_enabled_and_score_above_threshold :
  (forall sys_platform os procs acc a,
      boost_calls
        (trace_of (for_each_process sys_platform os (undisturbed procs) acc a))
      = map (fun r => (row_pid r, auto_boost_level a))
          (filter (fun r => auto_boost_enabled a
                            && PrimFloat.ltb (auto_boost_threshold a) (row_score r))
             (map row_of (survivors (undisturbed procs)))))
  /\ (forall sys_platform os procs acc a pid level,
         In (pid, level)
           (boost_calls
              (trace_of (for_each_process sys_platform os (undisturbed procs) acc a)))
         <-> (auto_boost_enabled a = true
              /\ level = auto_boost_level a
              /\ exists i, In i (survivors (undisturbed procs))
                           /\ info_pid i = pid
                           /\ PrimFloat.ltb (auto_boost_threshold a)
                                (row_score (row_of i)) = true))
  /\ (forall sys_platform os,
         map row_score (map row_of (survivors (undisturbed procs_10_51_80_50)))
         = [10; 51; 80; 50]%float
         /\ auto_boost_threshold app_auto_boost = 50%float
         /\ boost_calls
              (trace_of (for_each_process sys_platform os
                           (undisturbed procs_10_51_80_50) [] app_auto_boost))
            = [(2%Z, "High"%string); (3%Z, "High"%string)]).
Proof.
  assert (Heq : forall sys_platform os procs acc a,
             boost_calls
               (trace_of (for_each_process sys_platform os (undisturbed procs) acc a))
             = map (fun r => (row_pid r, auto_boost_level a))
                 (filter (fun r => auto_boost_enabled a
                                   && PrimFloat.ltb (auto_boost_threshold a)
                                        (row_score r))
                    (map row_of (survivors (undisturbed procs))))).
  { intros sys_platform os procs acc a.
    destruct (for_each_process_undisturbed sys_platform os procs acc a)
      as (_ & _ & H).
    rewrite H, rows_of_survivors. reflexivity. }
  split; [exact Heq |]. split.
  - intros sys_platform os procs acc a pid level. rewrite Heq, in_map_iff. split.
    + intros (r & Hr & Hin). apply filter_In in Hin. destruct Hin as [Hin Htest].
      apply andb_true_iff in Htest. destruct Htest as [Hen Hlt].
      apply in_map_iff in Hin. destruct Hin as (i & <- & Hi).
      injection Hr as <- <-. split; [exact Hen |]. split; [reflexivity |].
      exists i. auto.
    + intros (Hen & -> & i & Hi & <- & Hlt). exists (row_of i).
      split; [reflexivity |]. apply filter_In. split.
      * apply in_map. exact Hi.
      * rewrite Hen, Hlt. reflexivity.
  - intros sys_platform os. split; [vm_compute; reflexivity |].
    split; [reflexivity |]. rewrite Heq. vm_compute. reflexivity.
Qed.

(** C3.  What the code does on an automatic boost: whenever the test of the
    loop body holds, exactly one entry "Auto-boosted PID ..." is appended to
    the action log, whatever [boost_process_priority] returned.  On a process
    scoring 80 whose priority change the operating system refuses, the call
    returns [False] and the entry is logged all the same. *)
Theorem auto_boost_is_logged_whatever_its_outcome :
  (forall sys_platform os i now acc a,
      action_history
        (state_of (sample_process sys_platform os quiet (mk_item (Ok i) now) acc a))
      = if auto_boosts a (row_of i)
        then deque_append (action_history a)
               (log_entry now (auto_boost_message (row_of i)))
        else action_history a)
  /\ value_of (boost_process_priority posix os_denying 3 "High" app_auto_boost)
     = Ok false
  /\ dq_items
       (action_history
          (state_of (sample_process posix os_denying quiet (proc_ok 3 0 200) []
                       app_auto_boost)))
     = [("[2024-01-01 12:00:00] Auto-boosted PID 3 (worker) - Score: 80.00"
           +++ newline)%string].
Proof.
  split; [| split; vm_compute; reflexivity].
  intros sys_platform os i now acc a. rewrite sample_process_quiet_run.
  cbn [state_of fst snd]. destruct (auto_boosts a (row_of i)); reflexivity.
Qed.

(** C4.  The action log is a deque bounded to 100 entries when the
    application is created.  On a log bounded to N that respects its bound,
    [log_action] called N + k times leaves exactly the last N entries logged,
    in the order they were logged: the first k of them, and whatever the log
    held before, are dropped. *)
Theorem action_log_keeps_the_last_N_entries :
  forall (N k : nat) (a : gui_app) (entries : list (string * string)),
    dq_maxlen (action_history a) = Some N ->
    (List.length (dq_items (action_history a)) <= N)%nat ->
    List.length entries = (N + k)%nat ->
    dq_items (action_history (state_of (log_all entries a)))
    = skipn k (map (fun e => log_entry (fst e) (snd e)) entries)
    /\ List.length (dq_items (action_history (state_of (log_all entries a)))) = N
    /\ dq_maxlen (action_history init_app) = Some 100%nat.
Proof.
  intros N k a entries Hmax Hlen Hentries.
  rewrite log_all_history, (deque_fold_items _ _ N Hmax Hlen).
  set (old := dq_items (action_history a)) in *.
  set (new := map (fun e => log_entry (fst e) (snd e)) entries).
  assert (Hnew : List.length new = (N + k)%nat)
    by (subst new; rewrite length_map; exact Hentries).
  rewrite length_app, Hnew, skipn_app.
  replace (List.length old + (N + k) - N)%nat with (List.length old + k)%nat by lia.
  rewrite (skipn_all2 old) by lia.
  replace (List.length old + k - List.length old)%nat with k by lia.
  cbn [app]. split; [reflexivity |]. split; [| reflexivity].
  rewrite length_skipn, Hnew. lia.
Qed.

Lemma action_log_witness :
  dq_items (action_history (state_of (log_all (numbered_entries 103) init_app)))
  = skipn 3 (map (fun e => log_entry (fst e) (snd e)) (numbered_entries 103))
  /\ List.length
       (dq_items (action_history (state_of (log_all (numbered_entries 103) init_app))))
     = 100%nat
  /\ dq_maxlen (action_history init_app) = Some 100%nat.
Proof.
  apply (action_log_keeps_the_last_N_entries 100 3 init_app (numbered_entries 103)).
  - reflexivity.
  - simpl. lia.
  - reflexivity.
Defined.

(** C5, as the specification words it, fails: a pass one of whose pass-level
    calls raises is abandoned.  Here the first hand-off to the GUI raises
    while ten processes, three of them gone, wait to be enumerated, and no
    process list is published. *)
Lemma abandoned_pass_publishes_nothing :
  ~ pass_publishes_survivors posix os_granting
      (env_gui_gone (undisturbed ten_procs_three_gone)) init_app.
Proof.
  unfold pass_publishes_survivors. rewrite monitor_turn_published.
  simpl. discriminate.
Qed.

(** C5, amended.  A failure while one process is read never makes a pass
    fail: a process for which the body of the loop raises leaves the list,
    the application object and the trace untouched, and when the pass-level
    calls return (the system CPU and memory readings, the enumeration of the
    processes and the two hand-offs to the GUI), the turn completes and
    publishes exactly one process list, holding the samples of the processes
    whose reading did not raise, in enumeration order.  When a pass-level
    call raises, the enumeration included, the turn still returns but
    publishes no process list. *)
Theorem pass_publishes_exactly_the_survivors :
  forall sys_platform os env a,
    value_of (monitor_turn sys_platform os env a) = Ok tt
    /\ (pass_calls_return env ->
        pass_publishes_survivors sys_platform os env a)
    /\ (~ pass_calls_return env ->
        published_lists (trace_of (monitor_turn sys_platform os env a)) = [])
    /\ (forall w proc e acc a',
           item_info proc = Raise e ->
           sample_process sys_platform os w proc acc a' = (Ok acc, a', []))
    /\ (forall e,
           env_process_iter env = Some e ->
           published_lists (trace_of (monitor_turn sys_platform os env a)) = []).
Proof.
  intros sys_platform os env a.
  split; [apply monitor_turn_sleeps_once |].
  unfold pass_publishes_survivors, pass_calls_return.
  rewrite monitor_turn_published, <- rows_of_survivors.
  split; [| split; [| split]]; [| | | intros e ->;
    destruct (env_cpu_percent env); [| reflexivity];
    destruct (env_virtual_memory env); [| reflexivity];
    destruct (env_after_stats env); reflexivity].
  - intros ([cpu ->] & [vm ->] & -> & -> & ->). reflexivity.
  - intros Hnot.
    destruct (env_cpu_percent env) as [cpu | e1]; [| reflexivity].
    destruct (env_virtual_memory env) as [vm | e2]; [| reflexivity].
    destruct (env_after_stats env) as [e3 |]; [reflexivity |].
    destruct (env_process_iter env) as [e5 |]; [reflexivity |].
    destruct (env_after_list env) as [e4 |]; [reflexivity |].
    exfalso. apply Hnot. repeat split; eauto.
  - intros w proc e acc a' H. apply (sample_process_raise _ _ w proc e acc a' H).
Qed.

Lemma pass_publishes_seven_of_ten :
  pass_calls_return (env_healthy (undisturbed ten_procs_three_gone))
  /\ published_lists
       (trace_of (monitor_turn posix os_granting
                    (env_healthy (undisturbed ten_procs_three_gone)) init_app))
     = [map row_of (survivors (undisturbed ten_procs_three_gone))]
  /\ List.length (map row_of (survivors (undisturbed ten_procs_three_gone))) = 7%nat.
Proof.
  assert (H : pass_calls_return (env_healthy (undisturbed ten_procs_three_gone)))
    by (repeat split; eexists; reflexivity).
  split; [exact H |]. split; [| reflexivity].
  exact (proj1 (proj2 (pass_publishes_exactly_the_survivors posix os_granting
                         (env_healthy (undisturbed ten_procs_three_gone)) init_app))
           H).
Defined.

(** C6.  On a process that exists and may be signalled, [kill_process] first
    asks for termination, waits 0.5 second, and when the process is still
    running then kills it and returns [True]; no call of [kill_process] ever
    raises. *)
Theorem kill_escalates_after_grace_period :
  forall os pid a,
    os_Process os pid = None ->
    os_terminate os pid = None ->
    os_is_running os pid = true ->
    os_kill os pid = None ->
    kill_process os pid a
    = (Ok true, a,
       [Call_Process pid; Call_terminate pid; Call_sleep 0.5%float;
        Call_is_running pid; Call_kill pid]).
Proof.
  intros os pid a Hproc Hterm Hrun Hkill.
  unfold kill_process, new_Process, try_except, bind, emit, outcome, time_sleep, ret.
  rewrite Hproc, Hterm, Hrun, Hkill. reflexivity.
Qed.

Lemma kill_escalates_witness :
  kill_process os_granting 7 init_app
  = (Ok true, init_app,
     [Call_Process 7; Call_terminate 7; Call_sleep 0.5%float;
      Call_is_running 7; Call_kill 7]).
Proof.
  apply (kill_escalates_after_grace_period os_granting 7 init_app); reflexivity.
Defined.

(** C7, as the specification words it, fails: with process 42 selected, the
    level "Turbo", which the POSIX map does not hold, makes the command set
    nice -5 and report success. *)
Lemma unmappable_level_is_boosted_as_High :
  dict_mem "Turbo" (platform_priority_map posix) = false
  /\ In (Call_nice 42 (Nice (-5)))
       (trace_of (boost_selected_process posix os_granting (Some "Turbo"%string)
                    "2024-01-01 12:00:00" app_selected_42))
  /\ ~ reports_unsupported_without_fallback posix os_granting "Turbo"
         "2024-01-01 12:00:00" app_selected_42.
Proof.
  split; [reflexivity |].
  assert (H : In (Call_nice 42 (Nice (-5)))
                (trace_of (boost_selected_process posix os_granting
                             (Some "Turbo"%string) "2024-01-01 12:00:00"
                             app_selected_42)))
    by (vm_compute; auto 10).
  split; [exact H |].
  intros [Hnone _]. exact (Hnone 42%Z (Nice (-5)) H).
Qed.

(** C7, amended.  A user-initiated boost that names a level the platform's
    map does not hold is carried out at the default "High": the accessor is
    called with "High", sets the high priority class on Windows and nice -5
    elsewhere, and the command reports and logs the outcome under the name
    "High" (success message, status line and "Boosted PID ... to High
    priority", or the failure message and "Failed to boost PID ..."); the run
    is the run of "High" entered by hand.  The accessor itself, called with
    an unmapped level by any caller, sets the same default. *)
Theorem unmappable_level_is_replaced_by_High :
  forall sys_platform os priority now a,
    dict_mem priority (platform_priority_map sys_platform) = false ->
    let default :=
      match sys_platform with
      | win32 => HIGH_PRIORITY_CLASS
      | posix => Nice (-5)
      end in
    let granted pid :=
      match os_Process os pid, os_nice os pid default with
      | None, None => true
      | _, _ => false
      end in
    let os_calls pid :=
      Call_Process pid ::
      match os_Process os pid with
      | Some _ => []
      | None => [Call_nice pid default]
      end in
    let logged message :=
      set_log (deque_append (action_history a) (log_entry now message))
        (match history_text a with
         | Some t => Some (t ++ [log_entry now message])
         | None => None
         end) a in
    (forall pid,
        boost_process_priority sys_platform os pid priority a
        = (Ok (granted pid), a,
           Enter_boost_process_priority pid priority :: os_calls pid))
    /\ (forall pid,
           selected_pid a = Some pid ->
           boost_selected_process sys_platform os (Some priority) now a
           = (Ok tt,
              logged (if granted pid
                      then "Boosted PID " +++ str_int pid +++ " to High priority"
                      else "Failed to boost PID " +++ str_int pid)%string,
              Ask_string "Priority Level"
                ("Select priority level:" +++ newline
                   +++ join ", " (dict_keys (platform_priority_map sys_platform))
                   +++ newline +++ newline +++ "Enter priority (default: High):")
              :: Enter_boost_process_priority pid "High"
              :: os_calls pid
              ++ (if granted pid
                  then [Show_info "Success"
                          ("Process " +++ str_int pid +++ " priority set to High!");
                        Status_label
                          ("Status: Process " +++ str_int pid +++ " boosted to High")]
                  else [Show_error "Error"
                          ("Failed to boost process " +++ str_int pid +++ ".")])))
    /\ boost_selected_process sys_platform os (Some priority) now a
       = boost_selected_process sys_platform os (Some "High"%string) now a
    /\ (forall pid,
           value_of (boost_process_priority sys_platform os pid priority a)
           = value_of (boost_process_priority sys_platform os pid "High" a)
           /\ tl (trace_of (boost_process_priority sys_platform os pid priority a))
              = tl (trace_of (boost_process_priority sys_platform os pid "High" a))).
Proof.
  intros sys_platform os priority now a H. cbv zeta.
  assert (Hgranted : forall pid level,
             nice_for sys_platform level = nice_for sys_platform "High" ->
             boost_succeeds sys_platform os pid level
             = match os_Process os pid,
                     os_nice os pid (match sys_platform with
                                     | win32 => HIGH_PRIORITY_CLASS
                                     | posix => Nice (-5)
                                     end) with
               | None, None => true
               | _, _ => false
               end
             /\ boost_trace sys_platform os pid level
                = Enter_boost_process_priority pid level :: Call_Process pid ::
                  match os_Process os pid with
                  | Some _ => []
                  | None => [Call_nice pid (match sys_platform with
                                            | win32 => HIGH_PRIORITY_CLASS
                                            | posix => Nice (-5)
                                            end)]
                  end).
  { intros pid level Hlevel. unfold boost_succeeds, boost_trace.
    rewrite Hlevel, nice_for_High.
    destruct (os_Process os pid); [split; reflexivity |].
    destruct (os_nice os pid _); split; reflexivity. }
  split; [| split; [| split]].
  - intros pid. rewrite boost_process_priority_run.
    destruct (Hgranted pid priority (nice_for_unmapped _ _ H)) as [-> ->].
    reflexivity.
  - intros pid Hsel.
    rewrite (boost_selected_process_run sys_platform os priority now pid a Hsel).
    cbv zeta. rewrite H.
    destruct (Hgranted pid "High"%string eq_refl) as [-> ->].
    destruct (os_Process os pid); [reflexivity |].
    destruct (os_nice os pid _); reflexivity.
  - unfold boost_selected_process. rewrite H, dict_mem_High. reflexivity.
  - intros pid. rewrite !boost_process_priority_run.
    unfold value_of, trace_of, boost_succeeds, boost_trace. cbn [fst snd tl].
    rewrite (nice_for_unmapped _ _ H). split; reflexivity.
Qed.

Lemma unmappable_level_witness :
  boost_selected_process posix os_granting (Some "Turbo"%string)
    "2024-01-01 12:00:00" app_selected_42
  = (Ok tt,
     set_log
       (mk_deque (Some 100%nat)
          [("[2024-01-01 12:00:00] Boosted PID 42 to High priority" +++ newline)%string])
       None app_selected_42,
     [Ask_string "Priority Level"
        ("Select priority level:" +++ newline
           +++ "Very High, High, Above Normal, Normal, Below Normal, Low"
           +++ newline +++ newline +++ "Enter priority (default: High):");
      Enter_boost_process_priority 42 "High";
      Call_Process 42;
      Call_nice 42 (Nice (-5));
      Show_info "Success" "Process 42 priority set to High!";
      Status_label "Status: Process 42 boosted to High"]).
Proof.
  exact (proj1 (proj2 (unmappable_level_is_replaced_by_High posix os_granting
                         "Turbo" "2024-01-01 12:00:00" app_selected_42 eq_refl))
           42%Z eq_refl).
Defined.

(** C8, as the specification words it, fails: two processes both score 80;
    the user saves the settings with auto-boost unticked while the second is
    being evaluated; the first is boosted and the second is not, which no
    single configuration applied to both explains. *)
Lemma settings_saved_mid_pass_split_the_pass :
  boost_calls
    (trace_of (for_each_process posix os_granting procs_settings_saved_mid_pass []
                 app_auto_boost))
  = [(1%Z, "High"%string)]
  /\ map row_score (rows_of procs_settings_saved_mid_pass) = [80; 80]%float
  /\ ~ pass_applies_one_config posix os_granting procs_settings_saved_mid_pass
         app_auto_boost.
Proof.
  split; [vm_compute; reflexivity |]. split; [vm_compute; reflexivity |].
  intros [c H].
  assert (Hcalls : boost_calls
                     (trace_of (for_each_process posix os_granting
                                  procs_settings_saved_mid_pass [] app_auto_boost))
                   = [(1%Z, "High"%string)]) by (vm_compute; reflexivity).
  rewrite Hcalls in H. unfold policy_on_snapshot in H.
  destruct (autoBoostEnabled c); [| discriminate].
  change (rows_of procs_settings_saved_mid_pass)
    with [mk_row 1 "worker" 0 200 80 (Some "running"%string);
          mk_row 2 "worker" 0 200 80 (Some "running"%string)] in H.
  cbn [filter row_score] in H.
  destruct (PrimFloat.ltb (threshold c) 80); discriminate.
Qed.

(** C8, amended.  The loop reads the configuration from the shared
    application object at each process; in a pass during which the main
    thread writes no configuration field (whatever else it does), every
    process is evaluated against the configuration in force when the pass
    began: the calls are those of the specification's policy engine on that
    one configuration, and the configuration is unchanged when the pass
    ends. *)
Theorem pass_without_config_write_applies_the_initial_config :
  forall sys_platform os procs acc a,
    keeps_config (flat_map (fun wp => interference_steps (fst wp)) procs) = true ->
    boost_calls (trace_of (for_each_process sys_platform os procs acc a))
    = policy_on_snapshot (config_of a) (rows_of procs)
    /\ config_of (state_of (for_each_process sys_platform os procs acc a))
       = config_of a.
Proof.
  intros sys_platform os procs acc a H.
  rewrite policy_on_snapshot_config_of.
  apply for_each_process_keeps_config. exact H.
Qed.

Lemma pass_without_config_write_witness :
  boost_calls
    (trace_of (for_each_process posix os_granting procs_closed_mid_pass []
                 app_auto_boost))
  = policy_on_snapshot (config_of app_auto_boost) (rows_of procs_closed_mid_pass)
  /\ config_of
       (state_of (for_each_process posix os_granting procs_closed_mid_pass []
                    app_auto_boost))
     = config_of app_auto_boost.
Proof.
  apply (pass_without_config_write_applies_the_initial_config posix os_granting
           procs_closed_mid_pass [] app_auto_boost).
  reflexivity.
Defined.

(** C9.  The loop of [monitor_processes] never raises, whatever is raised
    inside its passes.  Each turn first lets the flag [monitoring_active] be
    read: when it is up the turn runs one pass, completed or failed, which
    ends with one [time.sleep(1)] and holds no other sleep, and the loop goes
    on with the next turn; when it is down the loop is left at once, with no
    pass, no sleep and nothing published.  So the loop is left only with the
    flag down, closing the window leaves it before the next pass, and as long
    as the main thread does not clear the flag the loop is still running
    after any number of turns, having run and published every pass. *)
Theorem monitor_loop_stops_only_on_request :
  forall sys_platform os schedule a,
    (exists st n,
        value_of (monitor_processes sys_platform os schedule a) = Ok st
        /\ sleeps (trace_of (monitor_processes sys_platform os schedule a))
           = repeat 1%float n
        /\ (st = Still_running -> n = List.length schedule)
        /\ (st = Stopped ->
            (n < List.length schedule)%nat
            /\ monitoring_active
                 (state_of (monitor_processes sys_platform os schedule a)) = false))
    /\ (monitoring_active a = true ->
        no_stop_request schedule ->
        value_of (monitor_processes sys_platform os schedule a) = Ok Still_running
        /\ sleeps (trace_of (monitor_processes sys_platform os schedule a))
           = repeat 1%float (List.length schedule)
        /\ published_lists (trace_of (monitor_processes sys_platform os schedule a))
           = flat_map (fun turn =>
                         published_lists
                           (trace_of (monitor_turn sys_platform os
                                        (turn_pass turn) a)))
               schedule)
    /\ (forall env a',
           value_of (monitor_turn sys_platform os env a') = Ok tt
           /\ exists t,
               trace_of (monitor_turn sys_platform os env a')
               = t ++ [Call_sleep 1%float]
               /\ sleeps t = [])
    /\ (forall turn rest,
           monitor_processes sys_platform os (turn :: rest) a
           = let checked := gui_thread (gui_before_check turn) a in
             if monitoring_active (state_of checked) then
               let pass :=
                 monitor_turn sys_platform os (turn_pass turn) (state_of checked) in
               let later := monitor_processes sys_platform os rest (state_of pass) in
               (value_of later, state_of later,
                trace_of checked ++ trace_of pass ++ trace_of later)
             else (Ok Stopped, state_of checked, trace_of checked))
    /\ (forall steps now env rest,
           monitor_processes sys_platform os
             (mk_turn (steps ++ on_closing now) env :: rest) a
           = (Ok Stopped,
              state_of (gui_thread (steps ++ on_closing now) a),
              trace_of (gui_thread (steps ++ on_closing now) a))
           /\ monitoring_active
                (state_of (gui_thread (steps ++ on_closing now) a)) = false
           /\ sleeps (trace_of (gui_thread (steps ++ on_closing now) a)) = []
           /\ published_lists (trace_of (gui_thread (steps ++ on_closing now) a))
              = []).
Proof.
  intros sys_platform os schedule a.
  split; [apply monitor_processes_runs |].
  split; [| split; [intros env a'; apply monitor_turn_sleeps_once | split]].
  - intros Ha Hno.
    pose proof (monitor_processes_keeps_running sys_platform os schedule a Ha Hno)
      as Hrun.
    split; [exact Hrun |]. split.
    + destruct (monitor_processes_runs sys_platform os schedule a)
        as (st & n & Hv & Hs & Hn & _).
      rewrite Hv in Hrun. injection Hrun as ->.
      rewrite Hs, (Hn eq_refl). reflexivity.
    + apply monitor_processes_publishes_every_turn; assumption.
  - intros turn rest. apply monitor_processes_cons.
  - intros steps now env rest.
    assert (Hdown : monitoring_active
                      (state_of (gui_thread (steps ++ on_closing now) a)) = false).
    { rewrite gui_thread_app. cbn [state_of fst snd].
      apply on_closing_clears_the_flag. }
    split; [| split; [exact Hdown | split]].
    + rewrite monitor_processes_cons. cbv zeta. cbn [gui_before_check].
      rewrite Hdown. reflexivity.
    + apply sleeps_gui_thread.
    + apply published_gui_thread.
Qed.

Lemma monitor_loop_witness :
  value_of (monitor_processes posix os_granting three_turns_two_failing init_app)
  = Ok Still_running
  /\ sleeps (trace_of (monitor_processes posix os_granting three_turns_two_failing
                         init_app))
     = [1; 1; 1]%float
  /\ published_lists
       (trace_of (monitor_processes posix os_granting three_turns_two_failing
                    init_app))
     = [map row_of (survivors (undisturbed ten_procs_three_gone))].
Proof.
  exact (proj1 (proj2 (monitor_loop_stops_only_on_request posix os_granting
                         three_turns_two_failing init_app))
           eq_refl eq_refl).
Defined.

(** Closing the window before the second turn: the loop runs one turn, sleeps
    once and is left. *)
Example monitor_loop_stops_when_closed :
  value_of (monitor_processes posix os_granting closed_before_second_turn
              app_auto_boost)
  = Ok Stopped
  /\ sleeps (trace_of (monitor_processes posix os_granting closed_before_second_turn
                         app_auto_boost))
     = [1%float].
Proof. split; vm_compute; reflexivity. Qed.

(** C10.  A process that is enumerated but has a missing ([None]) value still
    appears in the list the loop builds, and so in the list the pass
    publishes: a missing name becomes "N/A", a missing cpu or memory
    percentage becomes 0.0, and the score is the formula applied to the
    substituted values (0.0 when both are missing). *)
Theorem missing_metrics_are_substituted_not_dropped :
  forall sys_platform os env a w now i,
    In (w, mk_item (Ok i) now) (env_processes env) ->
    (exists rows,
        value_of (for_each_process sys_platform os (env_processes env) [] a)
        = Ok rows
        /\ In (row_of i) rows
        /\ (pass_calls_return env ->
            published_lists (trace_of (monitor_turn sys_platform os env a))
            = [rows]))
    /\ row_pid (row_of i) = info_pid i
    /\ (info_name i = None -> row_name (row_of i) = "N/A"%string)
    /\ (info_cpu_percent i = None -> row_cpu (row_of i) = 0%float)
    /\ (info_memory_percent i = None -> row_ram (row_of i) = 0%float)
    /\ row_score (row_of i)
       = calculate_score (row_cpu (row_of i)) (row_ram (row_of i))
    /\ (info_cpu_percent i = None -> info_memory_percent i = None ->
        row_score (row_of i) = 0%float).
Proof.
  intros sys_platform os env a w now i Hin.
  split.
  - exists (rows_of (env_processes env)). split; [| split].
    + apply (returns_for_each_process sys_platform os (env_processes env) []).
    + apply rows_of_In. exists w, now, i. auto.
    + intros ([cpu Hcpu] & [vm Hvm] & Hstats & Hiter & Hlist).
      rewrite monitor_turn_published, Hcpu, Hvm, Hstats, Hiter, Hlist.
      reflexivity.
  - unfold row_of. cbn [row_pid row_name row_cpu row_ram row_score].
    repeat split; try (intros ->; reflexivity).
    intros -> ->. vm_compute. reflexivity.
Qed.

Lemma missing_metrics_witness :
  exists rows,
    value_of (for_each_process posix os_granting
                (env_processes (env_healthy [(quiet, proc_without_metrics)]))
                [] app_auto_boost) = Ok rows
    /\ In (mk_row 9 "N/A" 0 0 0 None) rows
    /\ (pass_calls_return (env_healthy [(quiet, proc_without_metrics)]) ->
        published_lists
          (trace_of (monitor_turn posix os_granting
                       (env_healthy [(quiet, proc_without_metrics)])
                       app_auto_boost))
        = [rows]).
Proof.
  exact (proj1 (missing_metrics_are_substituted_not_dropped posix os_granting
                  (env_healthy [(quiet, proc_without_metrics)])
                  app_auto_boost quiet "2024-01-01 12:00:00"%string
                  (mk_info 9 None None None None)
                  (or_introl eq_refl))).
Defined.

(** * Further properties of the code *)

(** X1.  [kill_process] never raises and leaves the application object
    alone; its result and its calls are fixed by what the operating system
    answers: [False] when the process cannot be opened or refuses the
    termination request, [True] after the 0.5 second wait when the process
    has gone, and otherwise the result of the forced kill. *)
Theorem kill_process_outcomes :
  forall os pid a,
    kill_process os pid a
    = match os_Process os pid with
      | Some _ => (Ok false, a, [Call_Process pid])
      | None =>
          match os_terminate os pid with
          | Some _ => (Ok false, a, [Call_Process pid; Call_terminate pid])
          | None =>
              if os_is_running os pid then
                (Ok (match os_kill os pid with None => true | Some _ => false end),
                 a,
                 [Call_Process pid; Call_terminate pid; Call_sleep 0.5%float;
                  Call_is_running pid; Call_kill pid])
              else
                (Ok true, a,
                 [Call_Process pid; Call_terminate pid; Call_sleep 0.5%float;
                  Call_is_running pid])
          end
      end.
Proof.
  intros os pid a. rewrite kill_process_run. unfold kill_succeeds, kill_trace.
  destruct (os_Process os pid); [reflexivity |].
  destruct (os_terminate os pid); [reflexivity |].
  destruct (os_is_running os pid); reflexivity.
Qed.


(** X3.  [boost_process_priority] never raises and leaves the application
    object alone; it returns [False] when the process cannot be opened and
    otherwise tells whether [Process.nice] accepted the value; that value is
    the table's entry for the level, or the platform's "High" entry for a
    level the table lacks.  On POSIX it is always a nice value between -10
    and 10; on Windows it is always a priority class, and the realtime
    class only for the level "Realtime". *)
Theorem boost_process_priority_outcomes :
  forall sys_platform os pid level a,
  exists v,
    boost_process_priority sys_platform os pid level a
    = match os_Process os pid with
      | Some _ =>
          (Ok false, a,
           [Enter_boost_process_priority pid level; Call_Process pid])
      | None =>
          (Ok (match os_nice os pid v with None => true | Some _ => false end),
           a,
           [Enter_boost_process_priority pid level; Call_Process pid;
            Call_nice pid v])
      end
    /\ match dict_get level (platform_priority_map sys_platform) with
       | Some v' => v = v'
       | None => v = match sys_platform with
                     | win32 => HIGH_PRIORITY_CLASS
                     | posix => Nice (-5)
                     end
       end
    /\ match sys_platform with
       | posix => exists n, v = Nice n /\ (-10 <= n <= 10)%Z
       | win32 =>
           (forall n, v <> Nice n)
           /\ (v = REALTIME_PRIORITY_CLASS -> level = "Realtime"%string)
       end.
Proof.
  intros sys_platform os pid level a. exists (nice_for sys_platform level).
  split; [| split].
  - rewrite boost_process_priority_run. unfold boost_succeeds, boost_trace.
    destruct (os_Process os pid); [reflexivity |].
    destruct (os_nice os pid _); reflexivity.
  - unfold nice_for, platform_priority_map.
    destruct sys_platform;
      match goal with
      | |- context [dict_get level ?d] => destruct (dict_get level d)
      end; reflexivity.
  - unfold nice_for. destruct sys_platform.
    + destruct (dict_get level PRIORITY_LEVELS_Windows) as [v |] eqn:E.
      * exact (windows_levels_are_classes level v E).
      * split; discriminate.
    + destruct (dict_get level PRIORITY_LEVELS_Linux) as [v |] eqn:E.
      * exact (linux_levels_are_bounded level v E).
      * exists (-5)%Z. split; [reflexivity | lia].
Qed.



(** X6.  [save_settings] with a threshold text that is no number has
    already written [auto_boost_enabled] when [float] raises: the tick box
    takes effect, the threshold and the level keep their old values, and
    the error box is shown; the next undisturbed pass boosts by the ticked
    box and the old threshold and level.  With a number, all three fields
    are written and the success box is shown. *)
Theorem save_settings_with_invalid_threshold :
  forall auto_boost_var priority_var a,
    gui_thread (save_settings auto_boost_var None priority_var) a
    = (Ok tt, set_auto_boost_enabled auto_boost_var a,
       [Show_error "Error" "Invalid threshold value. Please enter a number."])
    /\ (forall t,
          gui_thread (save_settings auto_boost_var (Some t) priority_var) a
          = (Ok tt,
             set_auto_boost_level priority_var
               (set_auto_boost_threshold t
                  (set_auto_boost_enabled auto_boost_var a)),
             [Show_info "Success" "Settings saved successfully!"]))
    /\ (forall sys_platform os procs,
          boost_calls
            (trace_of
               (for_each_process sys_platform os (undisturbed procs) []
                  (state_of
                     (gui_thread (save_settings auto_boost_var None priority_var)
                        a))))
          = policy_on_snapshot
              (mk_config auto_boost_var (auto_boost_threshold a)
                 (auto_boost_level a))
              (rows_of (undisturbed procs))).
Proof.
  intros auto_boost_var priority_var a.
  split; [reflexivity |]. split; [reflexivity |].
  intros sys_platform os procs.
  change (state_of (gui_thread (save_settings auto_boost_var None priority_var) a))
    with (set_auto_boost_enabled auto_boost_var a).
  destruct (for_each_process_undisturbed sys_platform os procs []
              (set_auto_boost_enabled auto_boost_var a)) as (_ & _ & H).
  rewrite H. symmetry.
  exact (policy_on_snapshot_config_of (set_auto_boost_enabled auto_boost_var a) _).
Qed.

(** X7.  A disk reading that raises does not fail the pass: the statistics
    handed to the GUI carry zeros for the disk, and the process list is
    published as usual. *)
Theorem unreadable_disk_is_reported_as_zero :
  forall sys_platform os env a e cpu vm,
    env_disk_usage env = Raise e ->
    env_cpu_percent env = Ok cpu ->
    env_virtual_memory env = Ok vm ->
    env_after_stats env = None ->
    env_process_iter env = None ->
    env_after_list env = None ->
    let o := for_each_process sys_platform os (env_processes env) [] a in
    monitor_turn sys_platform os env a
    = (Ok tt, state_of o,
       After_update_system_stats
         (mk_stats cpu (vm_percent vm) (vm_total vm) (vm_used vm)
            (vm_available vm) 0%float 0 0 0)
       :: trace_of o
          ++ [After_update_process_list (map row_of (survivors (env_processes env)));
              Call_sleep 1%float]).
Proof.
  intros sys_platform os env a e cpu vm Hd Hc Hv Hs Hi Hl. cbv zeta.
  rewrite monitor_turn_cases, Hc, Hv, Hs, Hi, Hl, Hd, rows_of_survivors.
  reflexivity.
Qed.

Lemma unreadable_disk_witness :
  monitor_turn posix os_granting
    (env_disk_unreadable (undisturbed ten_procs_three_gone)) init_app
  = (Ok tt, init_app,
     [After_update_system_stats
        (mk_stats 12.5%float 40%float 16000 6400 9600 0%float 0 0 0);
      After_update_process_list
        (map row_of (survivors (undisturbed ten_procs_three_gone)));
      Call_sleep 1%float]).
Proof.
  exact (unreadable_disk_is_reported_as_zero posix os_granting
           (env_disk_unreadable (undisturbed ten_procs_three_gone)) init_app
           (Exception "disk not found") 12.5%float vm_sample
           eq_refl eq_refl eq_refl eq_refl eq_refl eq_refl).
Defined.

(** X8.  An undisturbed pass logs one entry per call of
    [boost_process_priority], in enumeration order, in the bounded log and
    in the history tab alike, and leaves the selection alone. *)
Theorem undisturbed_pass_logs_one_entry_per_boost :
  forall sys_platform os procs acc a,
    let o := for_each_process sys_platform os (undisturbed procs) acc a in
    action_history (state_of o)
    = fold_left deque_append (auto_boost_entries a procs) (action_history a)
    /\ history_text (state_of o)
       = match history_text a with
         | Some t => Some (t ++ auto_boost_entries a procs)
         | None => None
         end
    /\ List.length (auto_boost_entries a procs)
       = List.length (boost_calls (trace_of o))
    /\ selected_pid (state_of o) = selected_pid a.
Proof.
  intros sys_platform os procs. induction procs as [| [info now] rest IH];
    intros acc a.
  - cbn. destruct (history_text a); [rewrite app_nil_r |]; auto.
  - cbn [undisturbed map for_each_process]. fold (undisturbed rest).
    cbv zeta. unfold bind. destruct info as [i | e].
    + rewrite sample_process_quiet_run.
      unfold auto_boost_entries at 1 2 3. cbn [flat_map item_info item_now].
      fold (auto_boost_entries a rest).
      set (a1 := if auto_boosts a (row_of i)
                 then state_of (log_action now (auto_boost_message (row_of i)) a)
                 else a).
      assert (Hcfg : config_of a1 = config_of a)
        by (subst a1; destruct (auto_boosts a (row_of i)); reflexivity).
      specialize (IH (acc ++ [row_of i]) a1). cbv zeta in IH.
      rewrite (auto_boost_entries_config a a1 rest Hcfg) in IH.
      destruct (for_each_process sys_platform os (undisturbed rest)
                  (acc ++ [row_of i]) a1) as [[r a2] t2].
      cbn [state_of trace_of fst snd] in *.
      destruct IH as (IH1 & IH2 & IH3 & IH4).
      rewrite boost_calls_app, !length_app, <- IH3, IH1, IH2, IH4.
      subst a1. destruct (auto_boosts a (row_of i)).
      * rewrite boost_calls_boost_trace, log_action_run.
        cbn [state_of fst snd set_log action_history history_text selected_pid
               app fold_left List.length].
        repeat split.
        destruct (history_text a); [rewrite <- app_assoc |]; reflexivity.
      * cbn [app fold_left List.length boost_calls flat_map]. repeat split.
    + rewrite (sample_process_raise sys_platform os quiet (mk_item (Raise e) now) e
                 acc a eq_refl).
      specialize (IH acc a). cbv zeta in IH.
      destruct (for_each_process sys_platform os (undisturbed rest) acc a)
        as [[r a2] t2].
      cbn [state_of trace_of fst snd app] in *. exact IH.
Qed.

(** X9.  What a turn did before it was abandoned stays done: once the
    statistics were handed over, the application object and the calls of
    [boost_process_priority] are those of the loop over the processes,
    whether or not the enumeration or the second hand-off raise; a turn
    abandoned earlier changes nothing and boosts nothing. *)
Theorem abandoned_pass_keeps_what_it_did :
  forall sys_platform os env a,
    let o := for_each_process sys_platform os (env_processes env) [] a in
    state_of (monitor_turn sys_platform os env a)
    = match env_cpu_percent env, env_virtual_memory env, env_after_stats env with
      | Ok _, Ok _, None => state_of o
      | _, _, _ => a
      end
    /\ boost_calls (trace_of (monitor_turn sys_platform os env a))
       = match env_cpu_percent env, env_virtual_memory env, env_after_stats env with
         | Ok _, Ok _, None => boost_calls (trace_of o)
         | _, _, _ => []
         end.
Proof.
  intros sys_platform os env a. cbv zeta. rewrite monitor_turn_cases.
  destruct (env_cpu_percent env) as [cpu | e1]; [| split; reflexivity].
  destruct (env_virtual_memory env) as [vm | e2]; [| split; reflexivity].
  destruct (env_after_stats env) as [e3 |]; [split; reflexivity |].
  cbv zeta. split; [reflexivity |].
  unfold trace_of at 1. cbn [snd].
  change (boost_calls (?x :: ?l)) with (boost_calls ([x] ++ l)).
  rewrite !boost_calls_app.
  destruct (env_process_iter env); destruct (env_after_list env);
    cbn [boost_calls flat_map app]; rewrite app_nil_r; reflexivity.
Qed.

(** X10.  The process list a turn publishes depends on the readings of
    that turn only: not on the platform, on what the operating system
    answers to the boosts, or on the application object. *)
Theorem published_list_depends_on_the_readings_only :
  forall sys_platform os sys_platform' os' env a a',
    published_lists (trace_of (monitor_turn sys_platform os env a))
    = published_lists (trace_of (monitor_turn sys_platform' os' env a')).
Proof.
  intros. rewrite !monitor_turn_published. reflexivity.
Qed.

(** X11.  The history tab is never trimmed: it receives every entry
    logged, while the bounded log keeps the last [N] lines of what the tab
    shows. *)
Theorem history_tab_keeps_what_the_log_drops :
  forall entries a N t,
    dq_maxlen (action_history a) = Some N ->
    history_text a = Some t ->
    dq_items (action_history a) = skipn (List.length t - N) t ->
    let st := state_of (log_all entries a) in
    history_text st = Some (t ++ entries_of entries)
    /\ dq_items (action_history st)
       = skipn (List.length (t ++ entries_of entries) - N) (t ++ entries_of entries).
Proof.
  intros entries a N t Hmax Ht Hd. cbv zeta.
  rewrite log_all_widget, Ht. split; [reflexivity |].
  rewrite log_all_history. fold (entries_of entries).
  rewrite (deque_fold_items _ _ N Hmax).
  - rewrite Hd. apply skipn_suffix_app.
  - rewrite Hd, length_skipn. lia.
Qed.

Lemma history_tab_witness :
  let st := state_of (log_all (numbered_entries 103) app_with_history_tab) in
  history_text st = Some (entries_of (numbered_entries 103))
  /\ dq_items (action_history st) = skipn 3 (entries_of (numbered_entries 103)).
Proof.
  exact (history_tab_keeps_what_the_log_drops (numbered_entries 103)
           app_with_history_tab 100 [] eq_refl eq_refl eq_refl).
Defined.

(** X12.  [clear_history]: a declined confirmation changes nothing; a
    confirmed one empties the log and the history tab, keeps the bound of
    the log, and touches neither the configuration, the stop flag nor the
    selection; what is logged afterwards is all the log and the tab
    hold. *)
Theorem cleared_history_starts_again_from_empty :
  forall entries a N,
    dq_maxlen (action_history a) = Some N ->
    clear_history false a = (Ok tt, a, [Ask_yes_no "Confirm" "Clear all history?"])
    /\ trace_of (clear_history true a) = [Ask_yes_no "Confirm" "Clear all history?"]
    /\ let st := state_of (log_all entries (state_of (clear_history true a))) in
       dq_items (action_history st)
       = skipn (List.length (entries_of entries) - N) (entries_of entries)
       /\ history_text st
          = match history_text a with
            | Some _ => Some (entries_of entries)
            | None => None
            end
       /\ dq_maxlen (action_history st) = Some N
       /\ config_of st = config_of a
       /\ monitoring_active st = monitoring_active a
       /\ selected_pid st = selected_pid a.
Proof.
  intros entries a N Hmax. split; [reflexivity |]. split; [reflexivity |].
  cbv zeta.
  change (state_of (clear_history true a))
    with (set_log (mk_deque (dq_maxlen (action_history a)) [])
            (match history_text a with
             | Some _ => Some []
             | None => None
             end) a).
  set (a0 := set_log _ _ a).
  destruct (log_all_keeps_the_rest entries a0) as (H1 & H2 & H3 & H4 & _).
  rewrite H1, H2, H3, H4.
  rewrite log_all_widget, log_all_history. fold (entries_of entries).
  rewrite (deque_fold_items _ _ N); [| exact Hmax | cbn; lia].
  subst a0. cbn [set_log action_history history_text dq_items dq_maxlen app].
  repeat split; try assumption.
  destruct (history_text a); reflexivity.
Qed.

Lemma cleared_history_witness :
  dq_items
    (action_history
       (state_of
          (log_all (numbered_entries 2)
             (state_of
                (clear_history true
                   (state_of (log_all (numbered_entries 103) init_app)))))))
  = entries_of (numbered_entries 2).
Proof.
  exact (proj1 (proj2 (proj2
           (cleared_history_starts_again_from_empty (numbered_entries 2)
              (state_of (log_all (numbered_entries 103) init_app)) 100 eq_refl)))).
Defined.

(** X13.  [export_logs] writes a file only when the log is not empty, a
    file name was chosen and the writing did not raise, and then the file
    holds the entries the bounded log retains, in order; right after
    [clear_history] it only warns that there are no logs. *)
Theorem export_logs_writes_the_retained_entries :
  forall filename io a,
    written_lines (export_logs filename io a)
    = match dq_items (action_history a), io with
      | _ :: _, None =>
          if String.eqb filename "" then []
          else [(filename, dq_items (action_history a))]
      | _, _ => []
      end
    /\ export_logs filename io (state_of (clear_history true a))
       = [Window_event (Show_warning "No Logs" "No logs to export.")]
    /\ (forall entries N,
          dq_maxlen (action_history a) = Some N ->
          (List.length (dq_items (action_history a)) <= N)%nat ->
          (0 < N)%nat ->
          entries <> [] ->
          String.eqb filename "" = false ->
          export_logs filename None (state_of (log_all entries a))
          = let kept :=
              skipn (List.length (dq_items (action_history a) ++ entries_of entries)
                     - N)
                (dq_items (action_history a) ++ entries_of entries) in
            [ Ask_save_as_filename ".txt";
              Write_lines filename kept;
              Window_event
                (Show_info "Success" ("Logs exported to " +++ filename)) ]).
Proof.
  intros filename io a. split; [| split].
  - unfold export_logs.
    destruct (dq_items (action_history a)) as [| x xs]; [reflexivity |].
    cbn [written_lines flat_map app].
    destruct (String.eqb filename ""); [destruct io; reflexivity |].
    destruct io; reflexivity.
  - reflexivity.
  - intros entries N Hmax Hlen HN Hne Hfile. cbv zeta.
    unfold export_logs. rewrite Hfile, log_all_history.
    fold (entries_of entries).
    rewrite (deque_fold_items _ _ N Hmax Hlen).
    set (l := dq_items (action_history a) ++ entries_of entries).
    assert (Hl : (0 < List.length l)%nat).
    { subst l. rewrite length_app. unfold entries_of. rewrite length_map.
      destruct entries; [contradiction | cbn; lia]. }
    destruct (skipn (List.length l - N) l) as [| y ys] eqn:Hs; [| reflexivity].
    exfalso. apply (f_equal (@List.length _)) in Hs.
    rewrite length_skipn in Hs. cbn in Hs. lia.
Qed.

Lemma export_logs_witness :
  export_logs "log.txt" None (state_of (log_all (numbered_entries 103) init_app))
  = [ Ask_save_as_filename ".txt";
      Write_lines "log.txt" (skipn 3 (entries_of (numbered_entries 103)));
      Window_event (Show_info "Success" "Logs exported to log.txt") ].
Proof.
  exact (proj2 (proj2 (export_logs_writes_the_retained_entries "log.txt" None
                         init_app))
           (numbered_entries 103) 100%nat eq_refl
           ltac:(cbn; lia) ltac:(lia) ltac:(discriminate) eq_refl).
Defined.
